(** * The cartridge linter of vibecore, embedded and verified

    Shallow embedding of [validators/cartridge-lint.js] (class
    [CartridgeLinter]).  The linter object is a record that is threaded
    through the validators; code inside the [try] block of [lint] runs in a
    small state-and-exception monad, because findings pushed before a
    [throw] stay in the linter.

    Conventions.
    - A JavaScript string is a [string]: a sequence of code units below 256,
      which is exact for ASCII documents.
    - A JavaScript number is kept as the text [String(n)] gives for it; the
      linter only tests numbers for truthiness and interpolates them.
    - [this.stacks] is an object literal used as a map; its model keeps the
      own properties in enumeration order and the prototype behind them,
      because the linter reads it with [this.stacks[name]].
    - [report] returns an object that shares the linter's two arrays, and
      ends the process when there are errors; a report is therefore a pair
      of references, read through [view] in a given state of the linter.
    - [yaml.load] (js-yaml), [new RegExp(source, flags)] for sources built at
      run time, and the wording of the engine's own exceptions are parameters
      of the development.
    - Console output is not modelled.

    The file has three parts: the embedding, the definitions the properties
    are stated with (among them the rules as the specification words them,
    where the code departs from it), and the properties. *)

From Stdlib Require Import String Ascii List Bool Arith NArith ZArith Lia Permutation.
Import ListNotations.
Open Scope list_scope.
Open Scope string_scope.

(** ** String primitives of the JavaScript runtime *)

Module JS.

Definition nl : ascii := "010"%char.
Definition cr : ascii := "013"%char.
Definition dquote : string := String (ascii_of_nat 34) "".

(** [s.startsWith(p)] *)
Definition startsWith (s p : string) : bool := String.prefix p s.

(** [s.includes(p)] *)
Fixpoint includes (s p : string) : bool :=
  String.prefix p s ||
  match s with
  | EmptyString => false
  | String _ r => includes r p
  end.

(** [s.endsWith(p)] *)
Fixpoint endsWith (s p : string) : bool :=
  String.eqb s p ||
  match s with
  | EmptyString => false
  | String _ r => endsWith r p
  end.

(** [s.indexOf(p)], [None] standing for -1 *)
Fixpoint indexOf (s p : string) : option nat :=
  if String.prefix p s then Some 0
  else match s with
       | EmptyString => None
       | String _ r => option_map S (indexOf r p)
       end.

(** [s.substring(n)] *)
Fixpoint drop (n : nat) (s : string) : string :=
  match n, s with
  | O, _ => s
  | S k, EmptyString => EmptyString
  | S k, String _ r => drop k r
  end.

(** [s.substring(0, n)] *)
Fixpoint take (n : nat) (s : string) : string :=
  match n, s with
  | O, _ => EmptyString
  | S k, EmptyString => EmptyString
  | S k, String c r => String c (take k r)
  end.

(** [s.split(c)] for a one-character separator: never the empty list *)
Fixpoint split (c : ascii) (s : string) : list string :=
  match s with
  | EmptyString => [EmptyString]
  | String a r =>
      if Ascii.eqb a c then EmptyString :: split c r
      else match split c r with
           | x :: xs => String a x :: xs
           | [] => [String a EmptyString]
           end
  end.

(** [l.join(sep)] *)
Fixpoint join (sep : string) (l : list string) : string :=
  match l with
  | [] => EmptyString
  | [x] => x
  | x :: xs => x ++ sep ++ join sep xs
  end.

(** White space and line terminators below code unit 256, as [trim] strips
    them: TAB, LF, VT, FF, CR, SP and NBSP. *)
Definition is_space (c : ascii) : bool :=
  let n := nat_of_ascii c in
  ((9 <=? n) && (n <=? 13) || (n =? 32) || (n =? 160))%nat.

Fixpoint trimStart (s : string) : string :=
  match s with
  | EmptyString => EmptyString
  | String c r => if is_space c then trimStart r else s
  end.

Fixpoint trimEnd (s : string) : string :=
  match s with
  | EmptyString => EmptyString
  | String c r =>
      match trimEnd r with
      | EmptyString => if is_space c then EmptyString else String c EmptyString
      | r' => String c r'
      end
  end.

(** [s.trim()] *)
Definition trim (s : string) : string := trimEnd (trimStart s).

Definition is_digit (c : ascii) : bool :=
  let n := nat_of_ascii c in ((48 <=? n) && (n <=? 57))%nat.

Definition is_upper (c : ascii) : bool :=
  let n := nat_of_ascii c in ((65 <=? n) && (n <=? 90))%nat.

Definition is_lower (c : ascii) : bool :=
  let n := nat_of_ascii c in ((97 <=? n) && (n <=? 122))%nat.

(** the class [\w] *)
Definition is_word (c : ascii) : bool :=
  is_digit c || is_upper c || is_lower c || (nat_of_ascii c =? 95)%nat.

(** Case folding of the [i] flag: without the [u] flag only the ASCII letters
    fold onto ASCII letters. *)
Definition fold_case (c : ascii) : ascii :=
  if is_upper c then ascii_of_nat (nat_of_ascii c + 32) else c.

Fixpoint lower (s : string) : string :=
  match s with
  | EmptyString => EmptyString
  | String c r => String (fold_case c) (lower r)
  end.

(** case-insensitive search for a lower-case literal *)
Definition includes_ci (s lit : string) : bool := includes (lower s) lit.

(** the longest prefix of [s] made of characters satisfying [p] *)
Fixpoint span (p : ascii -> bool) (s : string) : string :=
  match s with
  | EmptyString => EmptyString
  | String c r => if p c then String c (span p r) else EmptyString
  end.

End JS.

(** ** Values produced by [yaml.load] *)

#[warnings="-register-all"]
Inductive value : Type :=
| VUndefined
| VNull
| VBool (b : bool)
| VNum (text : string)                    (* a number, as [String(n)] prints it *)
| VStr (s : string)
| VArr (items : list value)
| VObj (fields : list (string * value))   (* a mapping, keys in insertion order *)
| VDate (text : string).                  (* a YAML timestamp, as it prints *)

(** Conditions the engine itself raises as a [TypeError] or [SyntaxError]. *)
Inductive fault : Type :=
| InOnPrimitive (field : string) (v : value)      (* [field in v], v no object *)
| NotAFunction (callee : string)                  (* calling a non-function *)
| NotIterable (v : value)                         (* [for (... of v)] *)
| NoPrimitiveValue (v : value)                    (* ToString on such an object *)
| PropertyOfNullish (prop : string) (v : value)   (* [v.prop], v null/undefined *)
| InvalidRegExp (source : string).                (* [new RegExp(source)] *)

Inductive exn : Type :=
| EngineFault (f : fault)
| LibraryError (message : string).                (* js-yaml and fs errors *)

Inductive Completion (A : Type) : Type :=
| Normal (a : A)
| Throw (e : exn).
Arguments Normal {A} a.
Arguments Throw {A} e.

Module Value.

(** own property of a mapping *)
Fixpoint get_own (fields : list (string * value)) (k : string) : option value :=
  match fields with
  | [] => None
  | (k', v) :: rest => if String.eqb k' k then Some v else get_own rest k
  end.

(** The members every ordinary object inherits from [Object.prototype]. *)
Definition object_prototype_names : list string :=
  [ "constructor"; "__defineGetter__"; "__defineSetter__"; "hasOwnProperty";
    "__lookupGetter__"; "__lookupSetter__"; "isPrototypeOf";
    "propertyIsEnumerable"; "toString"; "valueOf"; "__proto__";
    "toLocaleString" ].

Definition inherited (k : string) : bool :=
  existsb (String.eqb k) object_prototype_names.

(** ToBoolean *)
Definition truthy (v : value) : bool :=
  match v with
  | VUndefined | VNull => false
  | VBool b => b
  | VNum t => negb (String.eqb t "0" || String.eqb t "NaN")
  | VStr s => negb (String.eqb s "")
  | VArr _ | VObj _ | VDate _ => true
  end.

(** [typeof v === 'string'] *)
Definition is_string (v : value) : bool :=
  match v with VStr _ => true | _ => false end.

(** [v === lit] for a string literal *)
Definition strict_eq_str (v : value) (lit : string) : bool :=
  match v with VStr s => String.eqb s lit | _ => false end.

(** [list.includes(v)] on an array of string literals *)
Definition in_literals (list : list string) (v : value) : bool :=
  existsb (strict_eq_str v) list.

(** [field in v] for the field names the linter asks for; none of them is a
    member of [Array.prototype] or [Date.prototype], nor an array index. *)
Definition has_property (field : string) (v : value) : Completion bool :=
  match v with
  | VObj fields =>
      Normal (match get_own fields field with
              | Some _ => true
              | None => inherited field
              end)
  | VArr _ | VDate _ => Normal (inherited field)
  | _ => Throw (EngineFault (InOnPrimitive field v))
  end.

(** [v.field] where [v] is known not to be null or undefined, for the field
    names the linter reads; none of them is inherited. *)
Definition get (v : value) (field : string) : value :=
  match v with
  | VObj fields =>
      match get_own fields field with
      | Some x => x
      | None => VUndefined
      end
  | _ => VUndefined
  end.

(** [v.field] in general *)
Definition get_checked (v : value) (field : string) : Completion value :=
  match v with
  | VUndefined | VNull => Throw (EngineFault (PropertyOfNullish field v))
  | _ => Normal (get v field)
  end.

(** ToString, as template literals, property keys and [RegExp] apply it.
    A mapping prints as [[object Object]] unless it carries an own
    [toString] entry: that entry is no function, [valueOf] then gives back
    the object, and the conversion throws. *)
Fixpoint to_string (v : value) : Completion string :=
  match v with
  | VUndefined => Normal "undefined"
  | VNull => Normal "null"
  | VBool true => Normal "true"
  | VBool false => Normal "false"
  | VNum t => Normal t
  | VStr s => Normal s
  | VDate t => Normal t
  | VObj fields =>
      match get_own fields "toString" with
      | Some _ => Throw (EngineFault (NoPrimitiveValue v))
      | None => Normal "[object Object]"
      end
  | VArr items =>
      (fix join_items (l : list value) : Completion string :=
         match l with
         | [] => Normal ""
         | x :: rest =>
             match (match x with
                    | VUndefined | VNull => Normal ""
                    | _ => to_string x
                    end) with
             | Throw e => Throw e
             | Normal sx =>
                 match rest with
                 | [] => Normal sx
                 | _ => match join_items rest with
                        | Throw e => Throw e
                        | Normal sr => Normal (sx ++ "," ++ sr)
                        end
                 end
             end
         end) items
  end.

End Value.

(** ** The linter object *)

(** What [error] and [warning] push: [{ message, line }]. *)
Record Finding : Type := { message : string; line : option nat }.

(** What a lookup [this.stacks[key]] finds. *)
Inductive slot : Type :=
| Found (v : value)          (* an own entry, or an entry of a replaced prototype *)
| Builtin (name : string)    (* a member inherited from [Object.prototype] *)
| Missing.                   (* undefined *)

(** [this.stacks]: an object literal [{}] used as a map.  [entries] are its
    own properties in the order [Object.keys] lists them.  [proto] is [None]
    while the prototype is [Object.prototype]; assigning a mapping to the key
    [__proto__] replaces the prototype by that mapping. *)
Record Registry : Type := {
  entries : list (string * value);
  proto : option (list (string * value))
}.

Record CartridgeLinter : Type := {
  errors : list Finding;
  warnings : list Finding;
  stacks : Registry
}.

(** The two arrays the constructor allocates.  They are pushed to and never
    replaced, so the object [report] returns shares them with the linter. *)
Inductive array_ref : Type := ErrorsArray | WarningsArray.

(** The object [report] returns: [{ valid, errors: this.errors,
    warnings: this.warnings }]. *)
Record Report : Type := {
  valid : bool;
  report_errors : array_ref;
  report_warnings : array_ref
}.

Definition deref (l : CartridgeLinter) (r : array_ref) : list Finding :=
  match r with
  | ErrorsArray => errors l
  | WarningsArray => warnings l
  end.

(** what a report reads as while its linter is in state [l] *)
Definition view (l : CartridgeLinter) (r : Report) : bool * list Finding * list Finding :=
  (valid r, deref l (report_errors r), deref l (report_warnings r)).

(** How a call of [lint] ends. *)
Inductive Outcome : Type :=
| Returned (r : Report)      (* [return { valid, errors, warnings }] *)
| Exited (code : nat)        (* [process.exit(code)] inside [report] *)
| Uncaught (e : exn).        (* an exception that leaves [lint] *)

Module Registry_ops.

Import Value.

(** The number a property key denotes when it is an array index: a canonical
    decimal numeral below 2^32 - 1.  Such keys are enumerated first, in
    ascending order, whatever the insertion order. *)
Fixpoint decimal (acc : N) (s : string) : option N :=
  match s with
  | EmptyString => Some acc
  | String c r =>
      if JS.is_digit c
      then decimal (acc * 10 + N.of_nat (nat_of_ascii c - 48)) r
      else None
  end.

Definition array_index (k : string) : option N :=
  match k with
  | EmptyString => None
  | String c r =>
      if Ascii.eqb c "0" && negb (String.eqb r "") then None
      else match decimal 0 k with
           | Some n => if (n <? 4294967295)%N then Some n else None
           | None => None
           end
  end.

(** where a new own property goes in the enumeration order *)
Fixpoint insert_index (n : N) (k : string) (v : value)
    (l : list (string * value)) : list (string * value) :=
  match l with
  | [] => [(k, v)]
  | (k', v') :: rest =>
      match array_index k' with
      | Some m => if (m <? n)%N then (k', v') :: insert_index n k v rest
                  else (k, v) :: l
      | None => (k, v) :: l
      end
  end.

Fixpoint replace (k : string) (v : value)
    (l : list (string * value)) : list (string * value) :=
  match l with
  | [] => []
  | (k', v') :: rest =>
      if String.eqb k' k then (k', v) :: rest else (k', v') :: replace k v rest
  end.

Definition put (k : string) (v : value)
    (l : list (string * value)) : list (string * value) :=
  match get_own l k with
  | Some _ => replace k v l
  | None =>
      match array_index k with
      | Some n => insert_index n k v l
      | None => (l ++ [(k, v)])%list
      end
  end.

(** [registry[key] = v].  The key [__proto__] reaches the setter of
    [Object.prototype]: a mapping becomes the prototype, a primitive is
    ignored, and no own property is created.  ([loadStacks] only assigns
    values that have a [name] entry, that is mappings.) *)
Definition set (r : Registry) (key : string) (v : value) : Registry :=
  if String.eqb key "__proto__" then
    match v with
    | VObj fields => {| entries := entries r; proto := Some fields |}
    | _ => r
    end
  else {| entries := put key v (entries r); proto := proto r |}.

(** [registry[key]]: own properties first, then the prototype chain. *)
Definition lookup (r : Registry) (key : string) : slot :=
  match get_own (entries r) key with
  | Some v => Found v
  | None =>
      match (match proto r with
             | Some fields => get_own fields key
             | None => None
             end) with
      | Some v => Found v
      | None =>
          if String.eqb key "__proto__" then
            match proto r with
            | Some fields => Found (VObj fields)
            | None => Builtin key
            end
          else if inherited key then Builtin key else Missing
      end
  end.

(** [Object.keys(registry)] *)
Definition keys (r : Registry) : list string := map fst (entries r).

Definition slot_truthy (s : slot) : bool :=
  match s with
  | Found v => truthy v
  | Builtin _ => true
  | Missing => false
  end.

(** [stack.field] on what a lookup found; the built-in members have none of
    the fields the scanner reads. *)
Definition slot_get (s : slot) (field : string) : value :=
  match s with
  | Found v => get v field
  | _ => VUndefined
  end.

Definition empty : Registry := {| entries := []; proto := None |}.

End Registry_ops.

(** ** Constants of the module *)

Definition REQUIRED_SECTIONS : list string :=
  [ "Purpose"; "Stack Contract"; "Development Style"; "Inputs"; "Outputs";
    "Guardrails"; "Steps the Agent Must Follow"; "Quality Gates";
    "Integration Points"; "Examples"; "Version History" ].

Definition VALID_TIERS : list string := ["prototype"; "productizing"; "production"].

Definition VALID_STATUSES : list string := ["draft"; "stable"; "deprecated"].

Definition requiredFields : list string :=
  ["cartridge"; "name"; "tier"; "stack"; "version"; "owner"; "status"].

Definition expectedCommands : list string := ["lint"; "typecheck"; "test"].

(** ** The state-and-exception monad of the validators *)

Definition M (A : Type) : Type := CartridgeLinter -> CartridgeLinter * Completion A.

Definition ret {A : Type} (a : A) : M A := fun l => (l, Normal a).

Definition bind {A B : Type} (m : M A) (k : A -> M B) : M B :=
  fun l =>
    match m l with
    | (l', Normal a) => k a l'
    | (l', Throw e) => (l', Throw e)
    end.

Notation "x <- m ;; k" := (bind m (fun x => k))
  (at level 61, m at next level, right associativity).
Notation "m ;;; k" := (bind m (fun _ => k))
  (at level 61, right associativity).

(** a pure step that may throw *)
Definition lift {A : Type} (c : Completion A) : M A := fun l => (l, c).

Definition throw {A : Type} (e : exn) : M A := fun l => (l, Throw e).

(** reading [this.stacks] *)
Definition the_stacks : M Registry := fun l => (l, Normal (stacks l)).

(** [this.error(message)]: [line] defaults to [null] *)
Definition error (msg : string) : M unit :=
  fun l =>
    ({| errors := (errors l ++ [{| message := msg; line := None |}])%list;
        warnings := warnings l;
        stacks := stacks l |}, Normal tt).

(** [this.warning(message)] *)
Definition warning (msg : string) : M unit :=
  fun l =>
    ({| errors := errors l;
        warnings := (warnings l ++ [{| message := msg; line := None |}])%list;
        stacks := stacks l |}, Normal tt).

(** [if (b) { m }] *)
Definition when (b : bool) (m : M unit) : M unit := if b then m else ret tt.

(** [for (const x of xs) { body }] *)
Fixpoint for_each {A : Type} (xs : list A) (body : A -> M unit) : M unit :=
  match xs with
  | [] => ret tt
  | x :: rest => body x ;;; for_each rest body
  end.

(** ** Regular expressions written as literals in the source *)

Module Pattern.

Import JS.

(** [/^\d+\.\d+\.\d+/.test(s)] *)
Definition semver_prefix (s : string) : bool :=
  let d1 := span is_digit s in
  let r1 := drop (String.length d1) s in
  let d2 := span is_digit (drop 1 r1) in
  let r2 := drop (String.length d2) (drop 1 r1) in
  let d3 := span is_digit (drop 1 r2) in
  negb (String.eqb d1 "") && startsWith r1 "." &&
  negb (String.eqb d2 "") && startsWith r2 "." &&
  negb (String.eqb d3 "").

(** [content.match(/^---\n([\s\S]*?)\n---/)]: the captured group and the
    length of the whole match.  The lazy group stops at the first
    occurrence of a line feed followed by three dashes. *)
Definition frontMatterMatch (content : string) : option (string * nat) :=
  let opening := String nl "" in
  if startsWith content ("---" ++ opening) then
    let rest := drop 4 content in
    match indexOf rest (opening ++ "---") with
    | Some i => Some (take i rest, 4 + i + 4)
    | None => None
    end
  else None.

(** The successive matches of [/```(\w+)?/g] that the [exec] loop sees:
    for each, the captured tag, [None] when the group did not take part.
    [skip] counts the characters of the previous match still to pass. *)
Fixpoint fence_scan (skip : nat) (s : string) : list (option string) :=
  match s with
  | EmptyString => []
  | String _ r =>
      match skip with
      | S k => fence_scan k r
      | O =>
          if startsWith s "```" then
            let tag := span is_word (drop 3 s) in
            (if String.eqb tag "" then None else Some tag)
              :: fence_scan (2 + String.length tag) r
          else fence_scan 0 r
      end
  end.

Definition codeBlockMatches (s : string) : list (option string) := fence_scan 0 s.

(** the part of [s] up to the next line terminator, which [.] does not cross *)
Definition same_line (s : string) : string :=
  span (fun c => negb (Ascii.eqb c nl || Ascii.eqb c cr)) s.

(** some occurrence of [a] is followed, on the same line, by [b]:
    the shape [a.*b] *)
Fixpoint then_on_line (s a b : string) : bool :=
  (startsWith s a && includes (same_line (drop (String.length a) s)) b) ||
  match s with
  | EmptyString => false
  | String _ r => then_on_line r a b
  end.

(** [/new Vue\(|createApp\(/gi.test(content)] *)
Definition vue_idiom (content : string) : bool :=
  includes_ci content "new vue(" || includes_ci content "createapp(".

(** [/<script.*lang="ts">|\.svelte/gi.test(content)] *)
Definition svelte_idiom (content : string) : bool :=
  then_on_line (lower content) "<script" ("lang=" ++ dquote ++ "ts" ++ dquote ++ ">")
  || includes_ci content ".svelte".

(** [/createStore|useDispatch|useSelector/gi.test(content)] *)
Definition redux_idiom (content : string) : bool :=
  includes_ci content "createstore" || includes_ci content "usedispatch"
  || includes_ci content "useselector".

End Pattern.

(** ** The validators *)

Section Linter.

Import JS Value.

(** [yaml.load] of js-yaml *)
Variable yaml_load : string -> Completion value.

(** [new RegExp(source, 'i')] and [new RegExp(source, 'gi')] followed by one
    [test]: [None] when the constructor rejects the source, otherwise the
    predicate [test] computes on a fresh expression. *)
Variable regexp_i : string -> option (string -> bool).

(** the [message] the engine gives its own exceptions *)
Variable fault_message : fault -> string.

Definition err_message (e : exn) : string :=
  match e with
  | EngineFault f => fault_message f
  | LibraryError m => m
  end.

Definition new_RegExp (source : string) : Completion (string -> bool) :=
  match regexp_i source with
  | Some test => Normal test
  | None => Throw (EngineFault (InvalidRegExp source))
  end.

Definition validateFrontMatter (frontMatter : value) : M value :=
  (* Check required fields *)
  for_each requiredFields (fun field =>
    present <- lift (has_property field frontMatter) ;;
    when (negb present) (error ("Missing required front matter field: " ++ field))) ;;;
  (* Validate cartridge flag *)
  when (match get frontMatter "cartridge" with VBool true => false | _ => true end)
    (error "Front matter cartridge field must be true") ;;;
  (* Validate tier *)
  (let tier := get frontMatter "tier" in
   when (truthy tier && negb (in_literals VALID_TIERS tier))
     (t <- lift (to_string tier) ;;
      error ("Invalid tier: " ++ t ++ ". Must be one of: " ++ join ", " VALID_TIERS))) ;;;
  (* Validate stack exists *)
  (let stack := get frontMatter "stack" in
   when (truthy stack)
     (key <- lift (to_string stack) ;;
      registry <- the_stacks ;;
      when (negb (Registry_ops.slot_truthy (Registry_ops.lookup registry key)))
        (error ("Unknown stack: " ++ key ++ ". Available stacks: "
                ++ join ", " (Registry_ops.keys registry))))) ;;;
  (* Validate version format (semver) *)
  (let version := get frontMatter "version" in
   when (truthy version)
     (v <- lift (to_string version) ;;
      when (negb (Pattern.semver_prefix v))
        (error ("Invalid version format: " ++ v ++ ". Use semver (e.g., 1.0.0)")))) ;;;
  (* Validate status *)
  (let status := get frontMatter "status" in
   when (truthy status && negb (in_literals VALID_STATUSES status))
     (s <- lift (to_string status) ;;
      error ("Invalid status: " ++ s ++ ". Must be one of: " ++ join ", " VALID_STATUSES))) ;;;
  (* Validate owner format *)
  (let owner := get frontMatter "owner" in
   when (truthy owner)
     match owner with
     | VStr o =>
         when (negb (startsWith o "@"))
           (warning ("Owner should start with @ (e.g., @username): " ++ o))
     | _ => throw (EngineFault (NotAFunction "frontMatter.owner.startsWith"))
     end) ;;;
  ret (get frontMatter "stack").

(** the titles of the level-2 headings, in order of appearance *)
Definition foundSections (content : string) : list string :=
  map (fun line => trim (drop 3 line))
      (filter (fun line => startsWith line "## ") (split nl content)).

(** [REQUIRED_SECTIONS.some(rs => s.startsWith(rs))] *)
Definition is_required (s : string) : bool :=
  existsb (fun rs => startsWith s rs) REQUIRED_SECTIONS.

(** [list.findIndex(p)], -1 when nothing satisfies [p] *)
Fixpoint findIndex {A : Type} (p : A -> bool) (l : list A) : Z :=
  match l with
  | [] => (-1)%Z
  | x :: rest =>
      if p x then 0%Z
      else let i := findIndex p rest in
           if (i <? 0)%Z then (-1)%Z else (i + 1)%Z
  end.

Definition expectedIndex (section : string) : Z :=
  findIndex (fun rs => startsWith section rs) REQUIRED_SECTIONS.

Definition order_message (section : string) : string :=
  "Section " ++ dquote ++ section ++ dquote ++ " is out of order. Expected order: "
  ++ join ", " REQUIRED_SECTIONS.

(** the loop over [orderedSections], [lastIndex] being its local variable *)
Fixpoint order_loop (lastIndex : Z) (orderedSections : list string) : M unit :=
  match orderedSections with
  | [] => ret tt
  | section :: rest =>
      when (expectedIndex section <? lastIndex)%Z (warning (order_message section)) ;;;
      order_loop (expectedIndex section) rest
  end.

Definition validateSections (content : string) : M unit :=
  let found := foundSections content in
  (* Check required sections *)
  for_each REQUIRED_SECTIONS (fun section =>
    when (negb (existsb (fun s => startsWith s section) found))
      (error ("Missing required section: ## " ++ section))) ;;;
  (* Check section order *)
  order_loop (-1)%Z (filter is_required found).

(** the values [for (const term of forbidden)] runs over *)
Definition iterate (v : value) : Completion (list value) :=
  match v with
  | VArr items => Normal items
  | VStr s => Normal (map (fun c => VStr (String c "")) (list_ascii_of_string s))
  | _ => Throw (EngineFault (NotIterable v))
  end.

Definition quote_class : string := "['" ++ dquote ++ "`]".

Definition validateStackCompliance (content : string) (stackName : value) : M unit :=
  if negb (truthy stackName) then ret tt else
  key <- lift (to_string stackName) ;;
  registry <- the_stacks ;;
  let stack := Registry_ops.lookup registry key in
  if negb (Registry_ops.slot_truthy stack) then ret tt else
  let forbidden :=
    let f := Registry_ops.slot_get stack "forbidden" in
    if truthy f then f else VArr [] in
  terms <- lift (iterate forbidden) ;;
  (* Check for forbidden terms in content *)
  for_each terms (fun term =>
    t <- lift (to_string term) ;;
    p1 <- lift (new_RegExp ("import.*from.*" ++ quote_class ++ ".*" ++ t ++ ".*" ++ quote_class)) ;;
    p2 <- lift (new_RegExp ("require\(.*" ++ quote_class ++ ".*" ++ t ++ ".*" ++ quote_class ++ ".*\)")) ;;
    p3 <- lift (new_RegExp ("from.*" ++ quote_class ++ ".*" ++ t ++ ".*" ++ quote_class)) ;;
    for_each [p1; p2; p3] (fun pattern =>
      when (pattern content)
        (error ("Forbidden technology " ++ dquote ++ t ++ dquote
                ++ " detected in examples for stack " ++ dquote ++ key ++ dquote))) ;;;
    (* Also check for framework-specific patterns *)
    when (strict_eq_str term "vue" && Pattern.vue_idiom content)
      (error ("Vue.js code detected but forbidden in stack " ++ dquote ++ key ++ dquote)) ;;;
    when (strict_eq_str term "svelte" && Pattern.svelte_idiom content)
      (error ("Svelte code detected but forbidden in stack " ++ dquote ++ key ++ dquote)) ;;;
    when (strict_eq_str term "redux" && Pattern.redux_idiom content)
      (error ("Redux code detected but forbidden in stack " ++ dquote ++ key ++ dquote))) ;;;
  (* Validate required technologies are mentioned *)
  let requiredTechs :=
    filter truthy
      [ Registry_ops.slot_get stack "framework"; Registry_ops.slot_get stack "language";
        Registry_ops.slot_get stack "orm"; Registry_ops.slot_get stack "api" ] in
  for_each requiredTechs (fun tech =>
    let techName :=
      match tech with
      | VStr s => VStr (hd "" (split "@" s))
      | _ => tech
      end in
    name <- lift (to_string techName) ;;
    techRegex <- lift (new_RegExp name) ;;
    when (negb (techRegex content))
      (warning ("Expected technology " ++ dquote ++ name ++ dquote
                ++ " not mentioned in cartridge content"))).

(** the loop of [extractSection]; [break] ends it *)
Fixpoint extract_loop (sectionName : string) (inSection : bool)
    (lines : list string) : list string :=
  match lines with
  | [] => []
  | line :: rest =>
      if startsWith line "## " && includes line sectionName
      then extract_loop sectionName true rest
      else if inSection && startsWith line "## " then []
      else if inSection then line :: extract_loop sectionName inSection rest
      else extract_loop sectionName inSection rest
  end.

Definition extractSection (content sectionName : string) : string :=
  join (String nl "") (extract_loop sectionName false (split nl content)).

Definition validateQualityGates (content : string) : M unit :=
  let qualityGatesSection := extractSection content "Quality Gates" in
  if String.eqb qualityGatesSection "" then ret tt else
  (* Check for bash commands *)
  when (negb (includes qualityGatesSection "```bash")
        && negb (includes qualityGatesSection "```sh"))
    (error "Quality Gates section must include runnable bash commands") ;;;
  (* Check for common commands based on tier *)
  match find (fun l => includes l "tier:") (split nl content) with
  | Some tierLine =>
      let tier := trim (nth 1 (split ":" tierLine) "") in
      when (String.eqb tier "productizing" || String.eqb tier "production")
        (for_each expectedCommands (fun cmd =>
           when (negb (includes qualityGatesSection cmd))
             (warning ("Expected command containing " ++ dquote ++ cmd ++ dquote
                       ++ " in Quality Gates for " ++ tier ++ " tier"))))
  | None => ret tt
  end.

Definition validateExamples (content : string) : M unit :=
  let examplesSection := extractSection content "Examples" in
  if String.eqb examplesSection "" then ret tt else
  (* Check for code blocks *)
  when (negb (includes examplesSection "```"))
    (error "Examples section must include code blocks") ;;;
  (* Check for proper language tags *)
  for_each (Pattern.codeBlockMatches examplesSection) (fun m =>
    when (match m with None => true | Some _ => false end)
      (warning "Code blocks in Examples should specify a language (e.g., ```typescript)")).

(** ** Files *)

(** what the file system holds at a path given to [lint] *)
Inductive entry : Type :=
| NoEntry                       (* [fs.existsSync] is false *)
| File (content : string)       (* [fs.readFileSync] gives the text *)
| Unreadable (e : exn).         (* it exists and reading it throws *)

(** the directory [stacks] next to the validators *)
Inductive directory : Type :=
| NoDirectory                                        (* it does not exist *)
| Listing (files : list (string * Completion string))
      (* the names [fs.readdirSync] lists, each with what reading it gives *)
| NotListable (e : exn).                             (* [readdirSync] throws *)

(** ** [report], [lint], [loadStacks] and the constructor *)

Definition hasErrors (l : CartridgeLinter) : bool :=
  negb (length (errors l) =? 0)%nat.

Definition report (l : CartridgeLinter) : CartridgeLinter * Outcome :=
  if hasErrors l then (l, Exited 1)
  else (l, Returned {| valid := negb (hasErrors l);
                       report_errors := ErrorsArray;
                       report_warnings := WarningsArray |}).

(** the body of the [try] block of [lint] *)
Definition lint_try (content : string) (captured : string) (matched : nat) : M unit :=
  frontMatter <- lift (yaml_load captured) ;;
  stackName <- validateFrontMatter frontMatter ;;
  (* Get content without front matter *)
  let bodyContent := drop matched content in
  (* Run validations *)
  validateSections bodyContent ;;;
  validateStackCompliance bodyContent stackName ;;;
  validateQualityGates bodyContent ;;;
  validateExamples bodyContent.

(** the linter when [report] is reached, or the exception that escapes *)
Definition lint_checks (fs : string -> entry) (filePath : string)
    (l : CartridgeLinter) : CartridgeLinter * Completion unit :=
  match fs filePath with
  | NoEntry => error ("File not found: " ++ filePath) l
  | Unreadable e => (l, Throw e)
  | File content =>
      match Pattern.frontMatterMatch content with
      | None => error "Missing front matter" l
      | Some (captured, matched) =>
          match lint_try content captured matched l with
          | (l', Normal _) => (l', Normal tt)
          | (l', Throw err) =>
              error ("Invalid YAML in front matter: " ++ err_message err) l'
          end
      end
  end.

Definition lint (fs : string -> entry) (filePath : string)
    (l : CartridgeLinter) : CartridgeLinter * Outcome :=
  match lint_checks fs filePath l with
  | (l', Normal _) => report l'
  | (l', Throw e) => (l', Uncaught e)
  end.

(** one turn of the loop of [loadStacks]: the [try] block and its [catch] *)
Definition load_one (file : string) (read : Completion string) : M unit :=
  fun l =>
    match (content <- lift read ;;
           stack <- lift (yaml_load content) ;;
           name <- lift (get_checked stack "name") ;;
           key <- lift (to_string name) ;;
           fun l0 => ({| errors := errors l0; warnings := warnings l0;
                         stacks := Registry_ops.set (stacks l0) key stack |},
                      Normal tt)) l with
    | (l', Normal _) => (l', Normal tt)
    | (l', Throw err) =>
        error ("Failed to load stack " ++ file ++ ": " ++ err_message err) l'
    end.

Definition loadStacks (stacksDir : directory) : M unit :=
  match stacksDir with
  | NoDirectory => error "Stacks directory not found"
  | NotListable e => throw e
  | Listing files =>
      let stackFiles := filter (fun f => endsWith (fst f) ".yml") files in
      for_each stackFiles (fun f => load_one (fst f) (snd f))
  end.

(** [new CartridgeLinter()] *)
Definition new_CartridgeLinter (stacksDir : directory) : CartridgeLinter * Completion unit :=
  loadStacks stacksDir {| errors := []; warnings := []; stacks := Registry_ops.empty |}.

End Linter.

(** ** Concrete surroundings for running the linter

    The parameters are instantiated as follows wherever the linter is run on
    a concrete document: [yaml.load] by a table that gives, for each header
    text used below, the value js-yaml builds for it; [new RegExp] by a
    matcher for the syntax that the sources of the scanner use when the
    terms of a profile are plain words. *)

Module Sample.

Import JS.

Fixpoint table_lookup (table : list (string * Completion value)) (text : string)
  : Completion value :=
  match table with
  | [] => Throw (LibraryError "document not in the table")
  | (t, r) :: rest => if String.eqb t text then r else table_lookup rest text
  end.

(** A matcher for the part of the regular-expression syntax the scanner's
    sources use when the profile's terms are plain words: literal
    characters, escaped punctuation, the dot, classes that list their
    members, and the star.  Everything else is left out and reads as a
    source the constructor rejects. *)
Inductive atom : Type :=
| Lit (c : ascii)
| AnyChar
| OneOf (members : string).

Inductive parser_state : Type :=
| Ready
| Escaped
| InClass (members : string).

Definition is_meta (c : ascii) : bool :=
  existsb (Ascii.eqb c) (list_ascii_of_string "()|+?{}^$]").

(** [acc] holds the items read so far, last first; the flag marks a star *)
Fixpoint parse (s : string) (state : parser_state) (acc : list (atom * bool))
  : option (list (atom * bool)) :=
  match s with
  | EmptyString =>
      match state with
      | Ready => Some (rev acc)
      | _ => None
      end
  | String c r =>
      match state with
      | Escaped =>
          if is_word c then None else parse r Ready ((Lit c, false) :: acc)
      | InClass members =>
          if Ascii.eqb c "]" then parse r Ready ((OneOf members, false) :: acc)
          else if existsb (Ascii.eqb c) (list_ascii_of_string "\-^[") then None
          else parse r (InClass (members ++ String c "")) acc
      | Ready =>
          if Ascii.eqb c "\" then parse r Escaped acc
          else if Ascii.eqb c "." then parse r Ready ((AnyChar, false) :: acc)
          else if Ascii.eqb c "[" then parse r (InClass "") acc
          else if Ascii.eqb c "*" then
            match acc with
            | (a, false) :: rest => parse r Ready ((a, true) :: rest)
            | _ => None
            end
          else if is_meta c then None
          else parse r Ready ((Lit c, false) :: acc)
      end
  end.

(** one character against one atom, letters compared without case *)
Definition atom_matches (a : atom) (c : ascii) : bool :=
  match a with
  | Lit x => Ascii.eqb (fold_case x) (fold_case c)
  | AnyChar => negb (Ascii.eqb c nl || Ascii.eqb c cr)
  | OneOf members =>
      existsb (fun x => Ascii.eqb (fold_case x) (fold_case c))
              (list_ascii_of_string members)
  end.

(** the items match a prefix of the string *)
Fixpoint matches_here (items : list (atom * bool)) : string -> bool :=
  match items with
  | [] => fun _ => true
  | (a, false) :: rest =>
      fun s =>
        match s with
        | EmptyString => false
        | String c r => if atom_matches a c then matches_here rest r else false
        end
  | (a, true) :: rest =>
      fix star (s : string) : bool :=
        if matches_here rest s then true
        else match s with
             | EmptyString => false
             | String c r => if atom_matches a c then star r else false
             end
  end.

(** the items match somewhere in the string *)
Fixpoint search (items : list (atom * bool)) (s : string) : bool :=
  if matches_here items s then true
  else match s with
       | EmptyString => false
       | String _ r => search items r
       end.

Definition regexp (source : string) : option (string -> bool) :=
  match parse source Ready [] with
  | Some items => Some (search items)
  | None => None
  end.

Definition fault_text (f : fault) : string :=
  match f with
  | InOnPrimitive field _ =>
      "Cannot use 'in' operator to search for '" ++ field ++ "'"
  | NotAFunction callee => callee ++ " is not a function"
  | NotIterable _ => "value is not iterable"
  | NoPrimitiveValue _ => "Cannot convert object to primitive value"
  | PropertyOfNullish prop _ => "Cannot read properties (reading '" ++ prop ++ "')"
  | InvalidRegExp source => "Invalid regular expression: /" ++ source ++ "/"
  end.

End Sample.

(** * Definitions used to state the properties *)

(** ** Findings *)

(** the linter [l] after [E] more errors and [W] more warnings were pushed *)
Definition add_findings (E W : list Finding) (l : CartridgeLinter) : CartridgeLinter :=
  {| errors := (errors l ++ E)%list;
     warnings := (warnings l ++ W)%list;
     stacks := stacks l |}.

Definition finding (msg : string) : Finding := {| message := msg; line := None |}.

(** A computation [adds] the findings [E] and [W] and completes with [c]. *)
Definition adds {A : Type} (m : M A) (l : CartridgeLinter)
    (E W : list Finding) (c : Completion A) : Prop :=
  m l = (add_findings E W l, c).

Definition mk (P Q : list Finding) (r : Registry) : CartridgeLinter :=
  {| errors := P; warnings := Q; stacks := r |}.

(** A computation is [uniform] when, over a given registry, it appends the
    same findings and completes the same way whatever findings the linter
    already holds, and leaves the registry alone. *)
Definition uniform {A : Type} (m : M A) : Prop :=
  forall r : Registry,
    exists (E W : list Finding) (c : Completion A),
      forall P Q : list Finding,
        m (mk P Q r) = (mk (P ++ E) (Q ++ W) r, c).

(** how [lint] ends, given how the checks completed and the errors held *)
Definition ending (c : Completion unit) (held : list Finding) : Outcome :=
  match c with
  | Throw e => Uncaught e
  | Normal _ =>
      match held with
      | [] => Returned {| valid := true; report_errors := ErrorsArray;
                          report_warnings := WarningsArray |}
      | _ :: _ => Exited 1
      end
  end.

Definition untagged_fence : Finding :=
  finding "Code blocks in Examples should specify a language (e.g., ```typescript)".

(** ** Section order *)

Open Scope Z_scope.

Definition order_finding (section : string) : Finding :=
  finding (order_message section).

(** the warnings the order loop pushes, as a list *)
Fixpoint order_warnings (lastIndex : Z) (sections : list string) : list Finding :=
  match sections with
  | [] => []
  | s :: rest =>
      ((if expectedIndex s <? lastIndex then [order_finding s] else [])
       ++ order_warnings (expectedIndex s) rest)%list
  end.

(** The rule in the words of the specification: a section is out of order
    when its expected index is below the running maximum of the expected
    indices seen so far. *)
Fixpoint order_warnings_running_max (runningMax : Z) (sections : list string)
  : list Finding :=
  match sections with
  | [] => []
  | s :: rest =>
      ((if expectedIndex s <? runningMax then [order_finding s] else [])
       ++ order_warnings_running_max (Z.max runningMax (expectedIndex s)) rest)%list
  end.

(** the sections that come right after a section of larger expected index *)
Definition descents (sections : list string) : list string :=
  map snd
    (filter (fun ps => expectedIndex (snd ps) <? expectedIndex (fst ps))
            (combine sections (tl sections))).

Fixpoint ascending (l : list Z) : bool :=
  match l with
  | x :: (y :: _) as rest => (x <=? y) && ascending rest
  | _ => true
  end.

(** the titles the order check walks over *)
Definition orderedSections (content : string) : list string :=
  filter is_required (foundSections content).

Definition missing_sections (found : list string) : list string :=
  filter (fun section => negb (existsb (fun s => JS.startsWith s section) found))
         REQUIRED_SECTIONS.

Definition missing_finding (section : string) : Finding :=
  finding ("Missing required section: ## " ++ section).

Definition canonical_indices : list Z := [0; 1; 2; 3; 4; 5; 6; 7; 8; 9; 10]%Z.

Close Scope Z_scope.

(** ** Section extraction *)

Definition is_heading (line : string) : bool := JS.startsWith line "## ".

(** the test that opens a section in [extractSection] *)
Definition opens (sectionName line : string) : bool :=
  is_heading line && JS.includes line sectionName.

Definition title (line : string) : string := JS.trim (JS.drop 3 line).

(** Extraction in the words of the specification: from the first heading
    whose title starts with the name, up to the next heading. *)
Fixpoint until_heading (lines : list string) : list string :=
  match lines with
  | [] => []
  | line :: rest => if is_heading line then [] else line :: until_heading rest
  end.

Fixpoint after_first_titled (sectionName : string) (lines : list string)
  : option (list string) :=
  match lines with
  | [] => None
  | line :: rest =>
      if is_heading line && JS.startsWith (title line) sectionName
      then Some (until_heading rest)
      else after_first_titled sectionName rest
  end.

Definition extractSection_by_title (content sectionName : string) : string :=
  match after_first_titled sectionName (JS.split JS.nl content) with
  | Some lines => JS.join (String JS.nl "") lines
  | None => ""
  end.

(** ** Stack-profile files *)

(** A stack-profile file that loads: its name, its text, the mapping js-yaml
    builds from the text, and the identifier the mapping declares. *)
Record ProfileFile : Type := {
  file_name : string;
  file_text : string;
  file_fields : list (string * value);
  file_id : string
}.

Definition as_listed (f : ProfileFile) : string * Completion string :=
  (file_name f, Normal (file_text f)).

Definition valid_profile (yaml_load : string -> Completion value) (f : ProfileFile) : Prop :=
  JS.endsWith (file_name f) ".yml" = true /\
  yaml_load (file_text f) = Normal (VObj (file_fields f)) /\
  Value.get_own (file_fields f) "name" = Some (VStr (file_id f)) /\
  file_id f <> "__proto__".

(** the own entries after the profiles were assigned one after the other *)
Definition put_all (fs : list ProfileFile) (l : list (string * value))
  : list (string * value) :=
  fold_left (fun acc f => Registry_ops.put (file_id f) (VObj (file_fields f)) acc) fs l.

(** ** The findings of the front-matter checks, as lists *)

Module Header.

Import JS Value.

(** values on which ToString cannot throw *)
Definition scalar (v : value) : bool :=
  match v with
  | VArr _ | VObj _ => false
  | _ => true
  end.

Definition to_text (v : value) : string :=
  match to_string v with
  | Normal s => s
  | Throw _ => ""
  end.

(** a value on which [.startsWith] can be called, or a falsy one *)
Definition string_or_falsy (v : value) : bool :=
  is_string v || negb (truthy v).

Definition present (fields : list (string * value)) (field : string) : bool :=
  match get_own fields field with
  | Some _ => true
  | None => inherited field
  end.

Definition missing_fields (fields : list (string * value)) : list Finding :=
  map (fun field => finding ("Missing required front matter field: " ++ field))
      (filter (fun field => negb (present fields field)) requiredFields).

Definition cartridge_errors (fm : value) : list Finding :=
  match get fm "cartridge" with
  | VBool true => []
  | _ => [finding "Front matter cartridge field must be true"]
  end.

Definition tier_errors (fm : value) : list Finding :=
  let tier := get fm "tier" in
  if truthy tier && negb (in_literals VALID_TIERS tier)
  then [finding ("Invalid tier: " ++ to_text tier ++ ". Must be one of: "
                 ++ join ", " VALID_TIERS)]
  else [].

Definition unknown_stack (registry : Registry) (id : string) : Finding :=
  finding ("Unknown stack: " ++ id ++ ". Available stacks: "
           ++ join ", " (Registry_ops.keys registry)).

Definition stack_errors (registry : Registry) (fm : value) : list Finding :=
  let stack := get fm "stack" in
  if truthy stack
     && negb (Registry_ops.slot_truthy (Registry_ops.lookup registry (to_text stack)))
  then [unknown_stack registry (to_text stack)]
  else [].

Definition version_errors (fm : value) : list Finding :=
  let version := get fm "version" in
  if truthy version && negb (Pattern.semver_prefix (to_text version))
  then [finding ("Invalid version format: " ++ to_text version
                 ++ ". Use semver (e.g., 1.0.0)")]
  else [].

Definition status_errors (fm : value) : list Finding :=
  let status := get fm "status" in
  if truthy status && negb (in_literals VALID_STATUSES status)
  then [finding ("Invalid status: " ++ to_text status ++ ". Must be one of: "
                 ++ join ", " VALID_STATUSES)]
  else [].

Definition owner_warnings (fm : value) : list Finding :=
  match get fm "owner" with
  | VStr o =>
      if truthy (VStr o) && negb (startsWith o "@")
      then [finding ("Owner should start with @ (e.g., @username): " ++ o)]
      else []
  | _ => []
  end.

(** all the errors of the front-matter checks, in the order they are pushed *)
Definition header_errors (registry : Registry) (fields : list (string * value))
  : list Finding :=
  (missing_fields fields ++ cartridge_errors (VObj fields)
   ++ tier_errors (VObj fields) ++ stack_errors registry (VObj fields)
   ++ version_errors (VObj fields) ++ status_errors (VObj fields))%list.

Definition scalar_header (fields : list (string * value)) : Prop :=
  scalar (get (VObj fields) "tier") = true /\
  scalar (get (VObj fields) "stack") = true /\
  scalar (get (VObj fields) "version") = true /\
  scalar (get (VObj fields) "status") = true /\
  string_or_falsy (get (VObj fields) "owner") = true.

End Header.

Definition version_error (text : string) : Finding :=
  finding ("Invalid version format: " ++ text ++ ". Use semver (e.g., 1.0.0)").

(** the text between the markers is no key/value data: js-yaml throws, or
    it yields a value on which [field in frontMatter] throws *)
Definition not_key_value (yaml_load : string -> Completion value)
    (captured : string) (cause : exn) : Prop :=
  yaml_load captured = Throw cause
  \/ exists v : value,
       yaml_load captured = Normal v
       /\ Value.has_property "cartridge" v = Throw cause.

(** ** Compliance with a profile *)

Definition forbidden_sources (t : string) : list string :=
  [ "import.*from.*" ++ quote_class ++ ".*" ++ t ++ ".*" ++ quote_class;
    "require\(.*" ++ quote_class ++ ".*" ++ t ++ ".*" ++ quote_class ++ ".*\)";
    "from.*" ++ quote_class ++ ".*" ++ t ++ ".*" ++ quote_class ].

Definition tech_name (tech : value) : value :=
  match tech with
  | VStr s => VStr (hd "" (JS.split "@" s))
  | _ => tech
  end.

Definition required_techs (stack : slot) : list value :=
  filter Value.truthy
    [ Registry_ops.slot_get stack "framework"; Registry_ops.slot_get stack "language";
      Registry_ops.slot_get stack "orm"; Registry_ops.slot_get stack "api" ].

Definition forbidden_of (stack : slot) : value :=
  let f := Registry_ops.slot_get stack "forbidden" in
  if Value.truthy f then f else VArr [].

Section Compliance.

Import Value.

Variable regexp_i : string -> option (string -> bool).

(** no pattern built for the forbidden term matches the content *)
Definition term_clean (content : string) (term : value) : Prop :=
  exists t : string,
    to_string term = Normal t
    /\ Forall (fun source => exists test, regexp_i source = Some test /\ test content = false)
              (forbidden_sources t)
    /\ strict_eq_str term "vue" && Pattern.vue_idiom content = false
    /\ strict_eq_str term "svelte" && Pattern.svelte_idiom content = false
    /\ strict_eq_str term "redux" && Pattern.redux_idiom content = false.

(** the expression built for the technology matches the content *)
Definition tech_mentioned (content : string) (tech : value) : Prop :=
  exists (name : string) (test : string -> bool),
    to_string (tech_name tech) = Normal name
    /\ regexp_i name = Some test /\ test content = true.

(** the content complies with the profile: no forbidden term is detected
    and every required technology is mentioned *)
Definition complies (content : string) (stack : slot) : Prop :=
  exists terms : list value,
    iterate (forbidden_of stack) = Normal terms
    /\ Forall (term_clean content) terms
    /\ Forall (tech_mentioned content) (required_techs stack).

End Compliance.

(** ** Sample registry and documents *)

Module Docs.

Import JS.

Definition nls : string := String nl "".

(** the text of a stack-profile file and the mapping js-yaml builds from it *)
Definition profile_text : string :=
  "name: next-react-trpc-prisma
framework: next@15
language: typescript
forbidden:
  - vue
  - svelte
  - redux".

Definition profile_fields : list (string * value) :=
  [ ("name", VStr "next-react-trpc-prisma");
    ("framework", VStr "next@15");
    ("language", VStr "typescript");
    ("forbidden", VArr [VStr "vue"; VStr "svelte"; VStr "redux"]) ].

Definition profile : value := VObj profile_fields.

Definition stacks_dir : directory := Listing [("next-react-trpc-prisma.yml", Normal profile_text)].

(** a second file that declares the same identifier *)
Definition duplicate_text : string :=
  "name: next-react-trpc-prisma
framework: remix".

Definition duplicate_profile : value :=
  VObj [ ("name", VStr "next-react-trpc-prisma"); ("framework", VStr "remix") ].

Definition duplicated_dir : directory :=
  Listing [ ("next-react-trpc-prisma.yml", Normal profile_text);
            ("copy.yml", Normal duplicate_text) ].

(** a profile under another identifier *)
Definition other_text : string :=
  "name: django-htmx
framework: django
language: python".

Definition other_profile : value :=
  VObj [ ("name", VStr "django-htmx"); ("framework", VStr "django");
         ("language", VStr "python") ].

Definition two_files : list ProfileFile :=
  [ {| file_name := "next-react-trpc-prisma.yml"; file_text := profile_text;
       file_fields := profile_fields;
       file_id := "next-react-trpc-prisma" |};
    {| file_name := "django-htmx.yml"; file_text := other_text;
       file_fields := [ ("name", VStr "django-htmx"); ("framework", VStr "django");
                        ("language", VStr "python") ];
       file_id := "django-htmx" |} ].

(** a cartridge: the header between the markers, then the body *)
Definition cartridge (header body : string) : string :=
  "---" ++ nls ++ header ++ nls ++ "---" ++ body.

Definition valid_header : string :=
  "cartridge: true
name: Demo
tier: production
stack: next-react-trpc-prisma
version: 1.0.0
owner: '@vibecore'
status: stable".

Definition valid_fields : list (string * value) :=
  [ ("cartridge", VBool true); ("name", VStr "Demo"); ("tier", VStr "production");
    ("stack", VStr "next-react-trpc-prisma"); ("version", VStr "1.0.0");
    ("owner", VStr "@vibecore"); ("status", VStr "stable") ].

(** scenario A as the specification words it: five fields, neither [owner]
    nor [name]; js-yaml reads [1.0] as the number 1 *)
Definition scenario_A_header : string :=
  "cartridge: true
tier: prototype
stack: django-htmx
version: 1.0
status: stable".

Definition scenario_A_fields : list (string * value) :=
  [ ("cartridge", VBool true); ("tier", VStr "prototype"); ("stack", VStr "django-htmx");
    ("version", VNum "1"); ("status", VStr "stable") ].

Definition scenario_A_named_fields : list (string * value) :=
  ("name", VStr "Demo") :: scenario_A_fields.

(** a header whose stack is the name of a member of [Object.prototype] *)
Definition inherited_header : string :=
  "cartridge: true
name: Demo
tier: production
stack: constructor
version: 1.0.0
owner: '@vibecore'
status: stable".

Definition inherited_fields : list (string * value) :=
  [ ("cartridge", VBool true); ("name", VStr "Demo"); ("tier", VStr "production");
    ("stack", VStr "constructor"); ("version", VStr "1.0.0");
    ("owner", VStr "@vibecore"); ("status", VStr "stable") ].

(** a header that is no YAML: the flow sequence is never closed; the table
    below gives the reason js-yaml states, without the position it appends *)
Definition broken_header : string := "cartridge: [true".

Definition yaml_load : string -> Completion value :=
  Sample.table_lookup
    [ (profile_text, Normal profile);
      (duplicate_text, Normal duplicate_profile);
      (other_text, Normal other_profile);
      (valid_header, Normal (VObj valid_fields));
      (scenario_A_header, Normal (VObj scenario_A_fields));
      (inherited_header, Normal (VObj inherited_fields));
      (broken_header,
       Throw (LibraryError "unexpected end of the stream within a flow collection")) ].

(** [new CartridgeLinter()] over the sample directory *)
Definition linter : CartridgeLinter :=
  fst (new_CartridgeLinter yaml_load Sample.fault_text stacks_dir).

(** a file system that holds one document, at [cartridge.md] *)
Definition holding (content : string) (path : string) : entry :=
  if String.eqb path "cartridge.md" then File content else NoEntry.

Definition lint_text (content : string) (l : CartridgeLinter) : CartridgeLinter * Outcome :=
  lint yaml_load Sample.regexp Sample.fault_text (holding content) "cartridge.md" l.

(** eleven sections in canonical order; the Quality Gates section holds a
    shell block without any of the words lint, typecheck, test; the Examples
    section holds one fence marker and no tag *)
Definition full_body : string :=
  "
# Demo

## Purpose
A next application in typescript.

## Stack Contract (Hard Requirements)
## Development Style
## Inputs
## Outputs
## Guardrails
## Steps the Agent Must Follow
## Quality Gates
```bash
pnpm build
```
## Integration Points
## Examples
```
## Version History
".

End Docs.

(** ** The batch runner [scripts/validate-all.js] and the command line *)

(** what the runner pushes to [issues] for a file it finds invalid *)
Record Issue : Type := {
  issue_file : string;
  issue_errors : list Finding;
  issue_warnings : list Finding
}.

(** the counters of the runner and its list of issues *)
Record Tally : Type := {
  totalFiles : nat;
  validFiles : nat;
  invalidFiles : nat;
  issues : list Issue
}.

(** how a script ends before its last statement *)
Inductive Stop : Type :=
| ProcessExit (code : nat)     (* [process.exit(code)] *)
| Crash (e : exn).             (* an exception nobody catches *)

(** how the runner ends: at its last statement with the tally it holds, or
    before *)
Inductive RunResult : Type :=
| Done (t : Tally)
| Stopped (s : Stop).

(** what the file system holds at the path of a tier *)
Inductive tier_directory : Type :=
| NoTier                          (* [fs.existsSync] is false *)
| TierFiles (names : list string) (* what [fs.readdirSync] lists *)
| TierUnlistable (e : exn).       (* it exists and listing it throws *)

Definition tiers : list string := ["prototype"; "productizing"; "production"].

(** [path.join(a, b)] for a normalised path [a] and a single segment [b],
    on a POSIX system *)
Definition path_join (a b : string) : string := a ++ "/" ++ b.

Definition empty_tally : Tally :=
  {| totalFiles := 0; validFiles := 0; invalidFiles := 0; issues := [] |}.

Section Scripts.

Variable yaml_load : string -> Completion value.
Variable regexp_i : string -> option (string -> bool).
Variable fault_message : fault -> string.

(** the surroundings of a run: the stacks directory every new linter reads,
    the path [cartridges] resolves to, the tier directories and the files *)
Variable stacksDir : directory.
Variable cartridgesDir : string.
Variable tier_at : string -> tier_directory.
Variable fs : string -> entry.

(** one turn of the inner loop of the runner *)
Definition validate_file (tier file : string) (t : Tally) : Tally + Stop :=
  let filePath := path_join (path_join cartridgesDir tier) file in
  match new_CartridgeLinter yaml_load fault_message stacksDir with
  | (_, Throw e) => inr (Crash e)
  | (linter, Normal _) =>
      match lint yaml_load regexp_i fault_message fs filePath linter with
      | (_, Exited code) => inr (ProcessExit code)
      | (_, Uncaught e) => inr (Crash e)
      | (after, Returned result) =>
          if valid result
          then inl {| totalFiles := S (totalFiles t);
                      validFiles := S (validFiles t);
                      invalidFiles := invalidFiles t;
                      issues := issues t |}
          else inl {| totalFiles := S (totalFiles t);
                      validFiles := validFiles t;
                      invalidFiles := S (invalidFiles t);
                      issues := issues t
                        ++ [{| issue_file := tier ++ "/" ++ file;
                               issue_errors := deref after (report_errors result);
                               issue_warnings := deref after (report_warnings result) |}] |}
      end
  end.

(** [for (const file of files)] *)
Fixpoint validate_files (tier : string) (files : list string) (t : Tally) : Tally + Stop :=
  match files with
  | [] => inl t
  | file :: rest =>
      match validate_file tier file t with
      | inl t' => validate_files tier rest t'
      | inr s => inr s
      end
  end.

(** the [.md] files the runner takes from a listing *)
Definition cartridge_names (names : list string) : list string :=
  filter (fun f => JS.endsWith f ".md") names.

(** one turn of the outer loop *)
Definition validate_tier (tier : string) (t : Tally) : Tally + Stop :=
  match tier_at (path_join cartridgesDir tier) with
  | NoTier => inl t
  | TierUnlistable e => inr (Crash e)
  | TierFiles names => validate_files tier (cartridge_names names) t
  end.

(** [for (const tier of tiers)] *)
Fixpoint validate_tiers (ts : list string) (t : Tally) : Tally + Stop :=
  match ts with
  | [] => inl t
  | tier :: rest =>
      match validate_tier tier t with
      | inl t' => validate_tiers rest t'
      | inr s => inr s
      end
  end.

(** the whole script [validate-all.js] *)
Definition validate_all : RunResult :=
  match validate_tiers tiers empty_tally with
  | inr s => Stopped s
  | inl t =>
      if negb (length (issues t) =? 0)%nat then Stopped (ProcessExit 1)
      else Done t
  end.

(** the command line of [cartridge-lint.js], given [process.argv.slice(2)]:
    [None] when the script runs to its end *)
Definition cli (args : list string) : option Stop :=
  match args with
  | [] => Some (ProcessExit 1)
  | filePath :: _ =>
      match new_CartridgeLinter yaml_load fault_message stacksDir with
      | (_, Throw e) => Some (Crash e)
      | (linter, Normal _) =>
          match lint yaml_load regexp_i fault_message fs filePath linter with
          | (_, Exited code) => Some (ProcessExit code)
          | (_, Uncaught e) => Some (Crash e)
          | (_, Returned _) => None
          end
      end
  end.

(** the file at [tier/file] makes [lint] end the process *)
Definition exits_in_lint (tier file : string) : Prop :=
  exists linter : CartridgeLinter,
    new_CartridgeLinter yaml_load fault_message stacksDir = (linter, Normal tt)
    /\ snd (lint yaml_load regexp_i fault_message fs
              (path_join (path_join cartridgesDir tier) file) linter) = Exited 1.

End Scripts.

(** ** Files of the stacks directory that load, fail or are passed over *)

Inductive ListedFile : Type :=
| Loads (f : ProfileFile)
| Fails (name : string) (read : Completion string) (cause : exn)
| PassedOver (name : string) (read : Completion string).

Definition listed (x : ListedFile) : string * Completion string :=
  match x with
  | Loads f => as_listed f
  | Fails name read _ => (name, read)
  | PassedOver name read => (name, read)
  end.

(** the [try] block of [loadStacks] throws [cause]: reading the file does,
    or js-yaml does, or the document is empty or null and [stack.name]
    does *)
Definition fails_to_load (yaml_load : string -> Completion value)
    (read : Completion string) (cause : exn) : Prop :=
  read = Throw cause
  \/ (exists text, read = Normal text /\ yaml_load text = Throw cause)
  \/ (exists text v, read = Normal text /\ yaml_load text = Normal v
                     /\ Value.get_checked v "name" = Throw cause).

Definition classified (yaml_load : string -> Completion value) (x : ListedFile) : Prop :=
  match x with
  | Loads f => valid_profile yaml_load f
  | Fails name read cause =>
      JS.endsWith name ".yml" = true /\ fails_to_load yaml_load read cause
  | PassedOver name _ => JS.endsWith name ".yml" = false
  end.

Fixpoint loading (xs : list ListedFile) : list ProfileFile :=
  match xs with
  | [] => []
  | Loads f :: rest => f :: loading rest
  | _ :: rest => loading rest
  end.

Fixpoint load_failures (fault_message : fault -> string) (xs : list ListedFile)
  : list Finding :=
  match xs with
  | [] => []
  | Fails name _ cause :: rest =>
      finding ("Failed to load stack " ++ name ++ ": " ++ err_message fault_message cause)
        :: load_failures fault_message rest
  | _ :: rest => load_failures fault_message rest
  end.

(** ** Shapes of texts *)

(** every character of the text is a decimal digit *)
Fixpoint all_digits (s : string) : bool :=
  match s with
  | EmptyString => true
  | String c r => JS.is_digit c && all_digits r
  end.

(** the text holds no character satisfying [p] *)
Fixpoint free_of (p : ascii -> bool) (s : string) : bool :=
  match s with
  | EmptyString => true
  | String c r => negb (p c) && free_of p r
  end.

Definition is_backtick (c : ascii) : bool := Ascii.eqb c "`".

Definition is_newline (c : ascii) : bool := Ascii.eqb c JS.nl.

(** every character of the text is a word character *)
Fixpoint all_word (s : string) : bool :=
  match s with
  | EmptyString => true
  | String c r => JS.is_word c && all_word r
  end.

(** the tally after [n] more files were found valid *)
Definition counted (n : nat) (t : Tally) : Tally :=
  {| totalFiles := n + totalFiles t;
     validFiles := n + validFiles t;
     invalidFiles := invalidFiles t;
     issues := issues t |}.

(** the number of [.md] files in the tier directories that exist *)
Definition listed_cartridges (cartridgesDir : string)
    (tier_at : string -> tier_directory) (ts : list string) : nat :=
  list_sum (map (fun tier =>
                   match tier_at (path_join cartridgesDir tier) with
                   | TierFiles names => length (cartridge_names names)
                   | _ => 0
                   end) ts).


(** ** A sample repository for the batch runner *)

Module Repo.

Import JS.

(** a header whose owner is a number *)
Definition numeric_owner_header : string :=
  "cartridge: true
name: Demo
tier: production
stack: next-react-trpc-prisma
version: 1.0.0
owner: 42
status: stable".

Definition numeric_owner_fields : list (string * value) :=
  [ ("cartridge", VBool true); ("name", VStr "Demo"); ("tier", VStr "production");
    ("stack", VStr "next-react-trpc-prisma"); ("version", VStr "1.0.0");
    ("owner", VNum "42"); ("status", VStr "stable") ].

(** a profile whose forbidden term is no source of a regular expression,
    and the header of a cartridge of that stack *)
Definition embedded_profile_text : string :=
  "name: embedded-c
language: c
forbidden:
  - c++".

Definition embedded_profile_fields : list (string * value) :=
  [ ("name", VStr "embedded-c"); ("language", VStr "c");
    ("forbidden", VArr [VStr "c++"]) ].


Definition embedded_header : string :=
  "cartridge: true
name: Firmware
tier: prototype
stack: embedded-c
version: 0.1.0
owner: '@vibecore'
status: draft".

Definition embedded_header_fields : list (string * value) :=
  [ ("cartridge", VBool true); ("name", VStr "Firmware"); ("tier", VStr "prototype");
    ("stack", VStr "embedded-c"); ("version", VStr "0.1.0");
    ("owner", VStr "@vibecore"); ("status", VStr "draft") ].

(** a profile that names itself [__proto__] *)
Definition proto_profile_text : string :=
  "name: __proto__
framework: next".

Definition proto_profile_fields : list (string * value) :=
  [ ("name", VStr "__proto__"); ("framework", VStr "next") ].

(** js-yaml on the texts of the samples; an empty document loads as
    [undefined] *)
Definition sample_yaml (text : string) : Completion value :=
  if String.eqb text numeric_owner_header then Normal (VObj numeric_owner_fields)
  else if String.eqb text embedded_profile_text then Normal (VObj embedded_profile_fields)
  else if String.eqb text embedded_header then Normal (VObj embedded_header_fields)
  else if String.eqb text proto_profile_text then Normal (VObj proto_profile_fields)
  else if String.eqb text "" then Normal VUndefined
  else Docs.yaml_load text.

(** a stacks directory with a profile, an empty file, a file that is no
    YAML, a file that cannot be read and a file with another ending *)
Definition mixed_files : list ListedFile :=
  [ Loads {| file_name := "next-react-trpc-prisma.yml"; file_text := Docs.profile_text;
             file_fields := Docs.profile_fields;
             file_id := "next-react-trpc-prisma" |};
    Fails "empty.yml" (Normal "")
      (EngineFault (PropertyOfNullish "name" VUndefined));
    Fails "broken.yml" (Normal Docs.broken_header)
      (LibraryError "unexpected end of the stream within a flow collection");
    Fails "locked.yml" (Throw (LibraryError "EACCES: permission denied"))
      (LibraryError "EACCES: permission denied");
    PassedOver "README.md" (Normal "Stack profiles.") ].

Definition cartridgesDir : string := "/repo/cartridges".

(** two tier directories; [productizing] does not exist *)
Definition tier_at (path : string) : tier_directory :=
  if String.eqb path "/repo/cartridges/prototype"
  then TierFiles ["landing.md"; "notes.txt"]
  else if String.eqb path "/repo/cartridges/production"
  then TierFiles ["billing.md"]
  else NoTier.

(** both cartridges are well formed *)
Definition clean_files (path : string) : entry :=
  if String.eqb path "/repo/cartridges/prototype/landing.md"
  then File (Docs.cartridge Docs.valid_header Docs.full_body)
  else if String.eqb path "/repo/cartridges/production/billing.md"
  then File (Docs.cartridge Docs.valid_header Docs.full_body)
  else NoEntry.

(** the header of the second cartridge is no YAML *)
Definition one_broken_file (path : string) : entry :=
  if String.eqb path "/repo/cartridges/prototype/landing.md"
  then File (Docs.cartridge Docs.valid_header Docs.full_body)
  else if String.eqb path "/repo/cartridges/production/billing.md"
  then File (Docs.cartridge Docs.broken_header Docs.full_body)
  else NoEntry.

(** a body with an Examples section of one closed block *)
Definition closed_block_body : string :=
  "## Examples
```ts
const x = 1;
```
## Version History".

End Repo.

(** ** A fenced block without a language, opened and closed *)

(** the text begins with no word character: a fence marker in front of it
    captures no tag *)
Definition tagless (s : string) : bool := String.eqb (JS.span JS.is_word s) "".

(** text, an opening marker, the lines of the block, a closing marker, text *)
Definition closed_block (intro code outro : string) : string :=
  intro ++ "```" ++ code ++ "```" ++ outro.

(** scenario B with its one block closed: the header of the sample
    cartridge, eleven sections in canonical order, a Quality Gates section
    that runs the three commands, an Examples section that holds one fenced
    block without a language *)
Module ScenarioB.

Definition body : string :=
  "
# Demo

## Purpose
A next application in typescript.

## Stack Contract (Hard Requirements)
## Development Style
## Inputs
## Outputs
## Guardrails
## Steps the Agent Must Follow
## Quality Gates
```bash
pnpm lint
pnpm typecheck
pnpm test
```
## Integration Points
## Examples
```
const answer = 42;
```
## Version History
".

Definition block_lines : string :=
  String JS.nl ("const answer = 42;" ++ String JS.nl "").

Definition document : string := Docs.cartridge Docs.valid_header body.

End ScenarioB.

(** * Properties *)

(** ** Findings are only ever appended *)

Lemma add_findings_nil (l : CartridgeLinter) : add_findings [] [] l = l.
Proof.
  destruct l as [e w s]. unfold add_findings. simpl. now rewrite !app_nil_r.
Qed.

Lemma add_findings_add (E1 W1 E2 W2 : list Finding) (l : CartridgeLinter) :
  add_findings E2 W2 (add_findings E1 W1 l)
  = add_findings (E1 ++ E2)%list (W1 ++ W2)%list l.
Proof.
  unfold add_findings. simpl. now rewrite !app_assoc.
Qed.

Lemma error_adds (msg : string) (l : CartridgeLinter) :
  error msg l = (add_findings [finding msg] [] l, Normal tt).
Proof.
  destruct l as [e w s]. unfold error, add_findings, finding. simpl.
  now rewrite app_nil_r.
Qed.

Lemma warning_adds (msg : string) (l : CartridgeLinter) :
  warning msg l = (add_findings [] [finding msg] l, Normal tt).
Proof.
  destruct l as [e w s]. unfold warning, add_findings, finding. simpl.
  now rewrite app_nil_r.
Qed.

Lemma adds_ret {A : Type} (a : A) (l : CartridgeLinter) :
  adds (ret a) l [] [] (Normal a).
Proof. unfold adds, ret. now rewrite add_findings_nil. Qed.

Lemma adds_bind {A B : Type} (m : M A) (k : A -> M B) (l : CartridgeLinter)
    (E1 W1 E2 W2 : list Finding) (a : A) (c : Completion B) :
  adds m l E1 W1 (Normal a) ->
  adds (k a) (add_findings E1 W1 l) E2 W2 c ->
  adds (bind m k) l (E1 ++ E2)%list (W1 ++ W2)%list c.
Proof.
  unfold adds, bind. intros -> ->. now rewrite add_findings_add.
Qed.

(** a loop whose body pushes one error for the elements satisfying [c] *)
Lemma for_each_errors {A : Type} (c : A -> bool) (msg : A -> string)
    (xs : list A) (l : CartridgeLinter) :
  adds (for_each xs (fun x => when (c x) (error (msg x)))) l
       (map (fun x => finding (msg x)) (filter c xs)) [] (Normal tt).
Proof.
  revert l. induction xs as [|x xs IH]; intros l; simpl.
  - apply adds_ret.
  - unfold adds, bind, when. destruct (c x).
    + rewrite error_adds, IH, add_findings_add. reflexivity.
    + unfold ret. apply IH.
Qed.

(** ** Section order *)

Open Scope Z_scope.

Lemma findIndex_lower_bound {A : Type} (p : A -> bool) (l : list A) :
  -1 <= findIndex p l.
Proof.
  induction l as [|x l IH]; simpl; [lia|].
  destruct (p x); [lia|]. destruct (findIndex p l <? 0) eqn:E; lia.
Qed.

Lemma order_loop_adds (lastIndex : Z) (sections : list string) (l : CartridgeLinter) :
  adds (order_loop lastIndex sections) l [] (order_warnings lastIndex sections) (Normal tt).
Proof.
  revert lastIndex l. induction sections as [|s rest IH]; intros lastIndex l; simpl.
  - apply adds_ret.
  - unfold adds, bind, when. destruct (expectedIndex s <? lastIndex).
    + rewrite warning_adds, IH, add_findings_add. reflexivity.
    + unfold ret. apply IH.
Qed.

Lemma validateSections_adds (content : string) (l : CartridgeLinter) :
  adds (validateSections content) l
       (map missing_finding (missing_sections (foundSections content)))
       (order_warnings (-1) (orderedSections content)) (Normal tt).
Proof.
  unfold validateSections.
  replace (order_warnings (-1) (orderedSections content))
    with (([] : list Finding) ++ order_warnings (-1) (orderedSections content))%list
    by reflexivity.
  rewrite <- (app_nil_r (map missing_finding _)).
  eapply adds_bind.
  - apply (for_each_errors
             (fun section => negb (existsb (fun s => JS.startsWith s section)
                                           (foundSections content)))
             (fun section => "Missing required section: ## " ++ section)%string).
  - apply order_loop_adds.
Qed.

Lemma order_warnings_descents_from (p : string) (sections : list string) :
  order_warnings (expectedIndex p) sections
  = map order_finding (descents (p :: sections)).
Proof.
  revert p. induction sections as [|s rest IH]; intros p.
  - reflexivity.
  - simpl order_warnings. rewrite IH. unfold descents. simpl.
    destruct (expectedIndex s <? expectedIndex p); reflexivity.
Qed.

Lemma order_warnings_descents (sections : list string) :
  order_warnings (-1) sections = map order_finding (descents sections).
Proof.
  destruct sections as [|s rest]; [reflexivity|].
  simpl order_warnings. rewrite order_warnings_descents_from.
  pose proof (findIndex_lower_bound (fun rs => JS.startsWith s rs) REQUIRED_SECTIONS) as H.
  fold (expectedIndex s) in H.
  destruct (expectedIndex s <? -1) eqn:E; [lia|]. reflexivity.
Qed.

Lemma ascending_weaken (x y : Z) (l : list Z) :
  x <= y -> ascending (y :: l) = true -> ascending (x :: l) = true.
Proof.
  destruct l as [|z l]; [reflexivity|]. simpl. intros Hxy H.
  apply andb_true_iff in H as [H1 H2]. apply andb_true_iff. split; [|exact H2].
  apply Z.leb_le. apply Z.leb_le in H1. lia.
Qed.

Lemma order_warnings_ascending (lastIndex : Z) (sections : list string) :
  ascending (lastIndex :: map expectedIndex sections) = true ->
  order_warnings lastIndex sections = [].
Proof.
  revert lastIndex. induction sections as [|s rest IH]; intros lastIndex H.
  - reflexivity.
  - simpl in H. apply andb_true_iff in H as [H1 H2]. apply Z.leb_le in H1.
    simpl order_warnings. rewrite (IH _ H2).
    destruct (expectedIndex s <? lastIndex) eqn:E; [lia|reflexivity].
Qed.

Lemma order_warnings_swap (lastIndex : Z) (pre post : list string) (a b : string) :
  ascending (lastIndex :: map expectedIndex (pre ++ a :: b :: post)) = true ->
  expectedIndex a < expectedIndex b ->
  order_warnings lastIndex (pre ++ b :: a :: post) = [order_finding a].
Proof.
  revert lastIndex. induction pre as [|p pre IH]; intros lastIndex H Hab.
  - simpl in H. apply andb_true_iff in H as [H1 H2]. apply Z.leb_le in H1.
    assert (H3 : ascending (expectedIndex b :: map expectedIndex post) = true).
    { simpl in H2. apply andb_true_iff in H2 as [_ H2]. exact H2. }
    simpl. destruct (expectedIndex b <? lastIndex) eqn:E1; [lia|].
    destruct (expectedIndex a <? expectedIndex b) eqn:E2; [|lia].
    rewrite order_warnings_ascending; [reflexivity|].
    apply (ascending_weaken _ (expectedIndex b)); [lia|exact H3].
  - simpl in H. apply andb_true_iff in H as [H1 H2]. apply Z.leb_le in H1.
    simpl. rewrite (IH _ H2 Hab).
    destruct (expectedIndex p <? lastIndex) eqn:E; [lia|reflexivity].
Qed.

Close Scope Z_scope.

(** ** Section extraction *)

Lemma extract_loop_not_opened (sectionName : string) (lines : list string) :
  forallb (fun line => negb (opens sectionName line)) lines = true ->
  extract_loop sectionName false lines = [].
Proof.
  induction lines as [|line rest IH]; simpl; [reflexivity|].
  intros H. apply andb_true_iff in H as [H1 H2].
  unfold opens, is_heading in H1. apply negb_true_iff in H1. rewrite H1.
  simpl. now apply IH.
Qed.

Lemma extract_loop_opens (sectionName : string) (pre rest : list string)
    (heading : string) :
  forallb (fun line => negb (opens sectionName line)) pre = true ->
  opens sectionName heading = true ->
  extract_loop sectionName false (pre ++ heading :: rest)
  = extract_loop sectionName true rest.
Proof.
  intros Hpre Hh. induction pre as [|line pre IH]; simpl.
  - unfold opens, is_heading in Hh. now rewrite Hh.
  - simpl in Hpre. apply andb_true_iff in Hpre as [H1 H2].
    unfold opens, is_heading in H1. apply negb_true_iff in H1. rewrite H1.
    simpl. now apply IH.
Qed.

(** inside the section: headings that contain the name are passed over,
    the other lines are collected *)
Lemma extract_loop_inside (sectionName : string) (mid tail : list string) :
  forallb (fun line => negb (is_heading line) || JS.includes line sectionName) mid = true ->
  extract_loop sectionName true (mid ++ tail)
  = (filter (fun line => negb (is_heading line)) mid
     ++ extract_loop sectionName true tail)%list.
Proof.
  induction mid as [|line mid IH]; simpl; [reflexivity|].
  intros H. apply andb_true_iff in H as [H1 H2].
  unfold is_heading in *.
  destruct (JS.startsWith line "## ") eqn:Eh; simpl in *.
  - rewrite H1. now apply IH.
  - rewrite (IH H2). reflexivity.
Qed.

Lemma extract_loop_closes (sectionName : string) (stop : string) (post : list string) :
  is_heading stop = true -> JS.includes stop sectionName = false ->
  extract_loop sectionName true (stop :: post) = [].
Proof.
  unfold is_heading. intros H1 H2. simpl. now rewrite H1, H2.
Qed.

(** ** The registry as a map *)

Module Registry_facts.

Import Value Registry_ops.

Lemma get_own_replace_same (k : string) (v : value) (l : list (string * value)) :
  get_own l k <> None -> get_own (replace k v l) k = Some v.
Proof.
  induction l as [|[k' v'] l IH]; simpl; [congruence|].
  destruct (String.eqb k' k) eqn:E; simpl; rewrite E; auto.
Qed.

Lemma get_own_replace_other (k k' : string) (v : value) (l : list (string * value)) :
  k' <> k -> get_own (replace k v l) k' = get_own l k'.
Proof.
  intros Hne. induction l as [|[k0 v0] l IH]; simpl; [reflexivity|].
  destruct (String.eqb k0 k) eqn:E; simpl.
  - apply String.eqb_eq in E. subst k0.
    destruct (String.eqb k k') eqn:E'; [|reflexivity].
    apply String.eqb_eq in E'. congruence.
  - destruct (String.eqb k0 k'); [reflexivity|exact IH].
Qed.

Lemma keys_replace (k : string) (v : value) (l : list (string * value)) :
  map fst (replace k v l) = map fst l.
Proof.
  induction l as [|[k' v'] l IH]; simpl; [reflexivity|].
  destruct (String.eqb k' k); simpl; [reflexivity|now rewrite IH].
Qed.

Lemma get_own_insert_same (n : N) (k : string) (v : value) (l : list (string * value)) :
  get_own l k = None -> get_own (insert_index n k v l) k = Some v.
Proof.
  induction l as [|[k' v'] l IH]; simpl; intros H.
  - now rewrite String.eqb_refl.
  - destruct (String.eqb k' k) eqn:E; [discriminate|].
    destruct (array_index k') as [m|]; [destruct (m <? n)%N|]; simpl;
      rewrite ?E, ?String.eqb_refl; auto.
Qed.

Lemma get_own_insert_other (n : N) (k k' : string) (v : value)
    (l : list (string * value)) :
  k' <> k -> get_own (insert_index n k v l) k' = get_own l k'.
Proof.
  intros Hne.
  assert (Hk : String.eqb k k' = false) by (apply String.eqb_neq; congruence).
  induction l as [|[k0 v0] l IH]; simpl.
  - now rewrite Hk.
  - destruct (array_index k0) as [m|]; [destruct (m <? n)%N|]; simpl;
      rewrite ?Hk, ?IH; reflexivity.
Qed.

Lemma keys_insert (n : N) (k : string) (v : value) (l : list (string * value)) :
  Permutation (map fst (insert_index n k v l)) (k :: map fst l).
Proof.
  induction l as [|[k' v'] l IH]; simpl; [apply Permutation_refl|].
  destruct (array_index k') as [m|]; [destruct (m <? n)%N|]; simpl;
    try apply Permutation_refl.
  eapply perm_trans; [apply perm_skip, IH|apply perm_swap].
Qed.

Lemma get_own_app_new (k : string) (v : value) (l : list (string * value)) :
  get_own l k = None -> get_own (l ++ [(k, v)]) k = Some v.
Proof.
  induction l as [|[k' v'] l IH]; simpl; intros H.
  - now rewrite String.eqb_refl.
  - destruct (String.eqb k' k); [discriminate|auto].
Qed.

Lemma get_own_app_other (k k' : string) (v : value) (l : list (string * value)) :
  k' <> k -> get_own (l ++ [(k, v)]) k' = get_own l k'.
Proof.
  intros Hne. induction l as [|[k0 v0] l IH]; simpl.
  - destruct (String.eqb k k') eqn:E; [|reflexivity].
    apply String.eqb_eq in E. congruence.
  - destruct (String.eqb k0 k'); [reflexivity|exact IH].
Qed.

Lemma get_own_put_same (k : string) (v : value) (l : list (string * value)) :
  get_own (put k v l) k = Some v.
Proof.
  unfold put. destruct (get_own l k) eqn:E.
  - apply get_own_replace_same. congruence.
  - destruct (array_index k).
    + now apply get_own_insert_same.
    + now apply get_own_app_new.
Qed.

Lemma get_own_put_other (k k' : string) (v : value) (l : list (string * value)) :
  k' <> k -> get_own (put k v l) k' = get_own l k'.
Proof.
  intros Hne. unfold put. destruct (get_own l k).
  - now apply get_own_replace_other.
  - destruct (array_index k).
    + now apply get_own_insert_other.
    + now apply get_own_app_other.
Qed.

Lemma keys_put_new (k : string) (v : value) (l : list (string * value)) :
  get_own l k = None -> Permutation (map fst (put k v l)) (k :: map fst l).
Proof.
  intros H. unfold put. rewrite H. destruct (array_index k).
  - apply keys_insert.
  - rewrite map_app. simpl. apply Permutation_sym, Permutation_cons_append.
Qed.

End Registry_facts.

(** ** Loading the registry *)

Section Loading.

Import Value Registry_ops Registry_facts.

Variable yaml_load : string -> Completion value.
Variable fault_message : fault -> string.

Lemma load_one_valid (f : ProfileFile) (l : CartridgeLinter) :
  valid_profile yaml_load f ->
  load_one yaml_load fault_message (file_name f) (Normal (file_text f)) l
  = ({| errors := errors l; warnings := warnings l;
        stacks := {| entries := put (file_id f) (VObj (file_fields f)) (entries (stacks l));
                     proto := proto (stacks l) |} |}, Normal tt).
Proof.
  intros (_ & Hy & Hn & Hp).
  unfold load_one, bind, lift. rewrite Hy. unfold get_checked, get. rewrite Hn.
  simpl. unfold set. apply String.eqb_neq in Hp. now rewrite Hp.
Qed.

Lemma load_all_valid (fs : list ProfileFile) (l : CartridgeLinter) :
  Forall (valid_profile yaml_load) fs ->
  loadStacks yaml_load fault_message (Listing (map as_listed fs)) l
  = ({| errors := errors l; warnings := warnings l;
        stacks := {| entries := put_all fs (entries (stacks l));
                     proto := proto (stacks l) |} |}, Normal tt).
Proof.
  unfold loadStacks. intros H.
  assert (Hf : filter (fun f : string * Completion string => JS.endsWith (fst f) ".yml")
                 (map as_listed fs) = map as_listed fs).
  { induction H as [|f fs Hv _ IH]; simpl; [reflexivity|].
    destruct Hv as (-> & _). now rewrite IH. }
  rewrite Hf. clear Hf. revert l.
  induction H as [|f fs Hv _ IH]; intros l; simpl.
  - destruct l as [e w [en pr]]. reflexivity.
  - unfold bind. rewrite (load_one_valid f l Hv). rewrite IH. reflexivity.
Qed.

End Loading.

Lemma put_all_keeps (fs : list ProfileFile) (l : list (string * value)) (k : string) :
  ~ In k (map file_id fs) ->
  Value.get_own (put_all fs l) k = Value.get_own l k.
Proof.
  revert l. induction fs as [|f fs IH]; intros l H; simpl; [reflexivity|].
  simpl in H. unfold put_all in IH. rewrite IH by tauto.
  apply Registry_facts.get_own_put_other. intros ->. tauto.
Qed.

Lemma put_all_finds (fs : list ProfileFile) (l : list (string * value)) (f : ProfileFile) :
  NoDup (map file_id fs) -> In f fs ->
  Value.get_own (put_all fs l) (file_id f) = Some (VObj (file_fields f)).
Proof.
  revert l. induction fs as [|g fs IH]; intros l Hnd Hin; simpl; [destruct Hin|].
  inversion Hnd as [|? ? Hnotin Hnd']; subst.
  destruct Hin as [->|Hin].
  - fold (put_all fs (Registry_ops.put (file_id f) (VObj (file_fields f)) l)).
    rewrite put_all_keeps by exact Hnotin.
    apply Registry_facts.get_own_put_same.
  - now apply IH.
Qed.

Lemma put_all_keys (fs : list ProfileFile) (l : list (string * value)) :
  NoDup (map file_id fs) ->
  (forall f, In f fs -> Value.get_own l (file_id f) = None) ->
  Permutation (map fst (put_all fs l)) (map fst l ++ map file_id fs).
Proof.
  revert l. induction fs as [|g fs IH]; intros l Hnd Hnew; simpl.
  - rewrite app_nil_r. apply Permutation_refl.
  - inversion Hnd as [|? ? Hnotin Hnd']; subst.
    fold (put_all fs (Registry_ops.put (file_id g) (VObj (file_fields g)) l)).
    eapply perm_trans.
    + apply IH; [exact Hnd'|]. intros f Hf.
      rewrite Registry_facts.get_own_put_other.
      * apply Hnew. now right.
      * intros E. apply Hnotin. rewrite <- E. now apply in_map.
    + eapply perm_trans.
      * apply Permutation_app_tail.
        apply Registry_facts.keys_put_new. apply Hnew. now left.
      * simpl. apply Permutation_middle.
Qed.

(** ** The front matter of a header whose fields are scalars *)

Module Header_facts.

Import JS Value Header.

Lemma to_string_scalar (v : value) :
  scalar v = true -> to_string v = Normal (to_text v).
Proof.
  unfold to_text. destruct v as [| |[|]| | | | |]; simpl; congruence.
Qed.

Lemma required_fields_adds (fields : list (string * value)) (l : CartridgeLinter) :
  adds (for_each requiredFields (fun field =>
          present <- lift (has_property field (VObj fields)) ;;
          when (negb present)
               (error ("Missing required front matter field: " ++ field))))
       l (missing_fields fields) [] (Normal tt).
Proof.
  unfold missing_fields. generalize requiredFields as names. intros names. revert l.
  induction names as [|field names IH]; intros l; simpl.
  - apply adds_ret.
  - unfold adds, bind, lift, when, has_property. fold (present fields field).
    destruct (present fields field); cbn [negb].
    + unfold ret. apply IH.
    + rewrite error_adds, IH, add_findings_add. reflexivity.
Qed.

Lemma tier_adds (fm : value) (l : CartridgeLinter) :
  scalar (get fm "tier") = true ->
  adds (let tier := get fm "tier" in
        when (truthy tier && negb (in_literals VALID_TIERS tier))
          (t <- lift (to_string tier) ;;
           error ("Invalid tier: " ++ t ++ ". Must be one of: " ++ join ", " VALID_TIERS)))
       l (tier_errors fm) [] (Normal tt).
Proof.
  intros H. unfold tier_errors. cbv zeta. rewrite (to_string_scalar _ H).
  destruct (truthy (get fm "tier") && negb (in_literals VALID_TIERS (get fm "tier")));
    simpl; [apply error_adds|apply adds_ret].
Qed.

Lemma stack_adds (fm : value) (l : CartridgeLinter) :
  scalar (get fm "stack") = true ->
  adds (let stack := get fm "stack" in
        when (truthy stack)
          (key <- lift (to_string stack) ;;
           registry <- the_stacks ;;
           when (negb (Registry_ops.slot_truthy (Registry_ops.lookup registry key)))
             (error ("Unknown stack: " ++ key ++ ". Available stacks: "
                     ++ join ", " (Registry_ops.keys registry)))))
       l (stack_errors (stacks l) fm) [] (Normal tt).
Proof.
  intros H. unfold stack_errors, unknown_stack. cbv zeta. rewrite (to_string_scalar _ H).
  destruct (truthy (get fm "stack")); simpl; [|apply adds_ret].
  unfold adds, bind, lift, the_stacks.
  destruct (Registry_ops.slot_truthy
              (Registry_ops.lookup (stacks l) (to_text (get fm "stack"))));
    simpl; [apply adds_ret|apply error_adds].
Qed.

Lemma version_adds (fm : value) (l : CartridgeLinter) :
  scalar (get fm "version") = true ->
  adds (let version := get fm "version" in
        when (truthy version)
          (v <- lift (to_string version) ;;
           when (negb (Pattern.semver_prefix v))
             (error ("Invalid version format: " ++ v ++ ". Use semver (e.g., 1.0.0)"))))
       l (version_errors fm) [] (Normal tt).
Proof.
  intros H. unfold version_errors. cbv zeta. rewrite (to_string_scalar _ H).
  destruct (truthy (get fm "version")); simpl; [|apply adds_ret].
  unfold adds, bind, lift.
  destruct (Pattern.semver_prefix (to_text (get fm "version")));
    simpl; [apply adds_ret|apply error_adds].
Qed.

Lemma status_adds (fm : value) (l : CartridgeLinter) :
  scalar (get fm "status") = true ->
  adds (let status := get fm "status" in
        when (truthy status && negb (in_literals VALID_STATUSES status))
          (s <- lift (to_string status) ;;
           error ("Invalid status: " ++ s ++ ". Must be one of: " ++ join ", " VALID_STATUSES)))
       l (status_errors fm) [] (Normal tt).
Proof.
  intros H. unfold status_errors. cbv zeta. rewrite (to_string_scalar _ H).
  destruct (truthy (get fm "status") && negb (in_literals VALID_STATUSES (get fm "status")));
    simpl; [apply error_adds|apply adds_ret].
Qed.

Lemma owner_adds (fm : value) (l : CartridgeLinter) :
  string_or_falsy (get fm "owner") = true ->
  adds (let owner := get fm "owner" in
        when (truthy owner)
          match owner with
          | VStr o =>
              when (negb (startsWith o "@"))
                (warning ("Owner should start with @ (e.g., @username): " ++ o))
          | _ => throw (EngineFault (NotAFunction "frontMatter.owner.startsWith"))
          end)
       l [] (owner_warnings fm) (Normal tt).
Proof.
  unfold string_or_falsy, owner_warnings. cbv zeta.
  destruct (get fm "owner") as [| |b|t|o| | |] eqn:E; simpl; intros H;
    try discriminate; try apply adds_ret.
  - destruct b; [discriminate|apply adds_ret].
  - apply negb_true_iff in H. rewrite H. apply adds_ret.
  - destruct (negb (String.eqb o "")); simpl; [|apply adds_ret].
    destruct (negb (startsWith o "@")); simpl; [apply warning_adds|apply adds_ret].
Qed.

(** The front-matter checks on a mapping with scalar fields never throw;
    their findings are [header_errors] and [owner_warnings]. *)
Lemma validateFrontMatter_scalars (fields : list (string * value)) (l : CartridgeLinter) :
  scalar_header fields ->
  adds (validateFrontMatter (VObj fields)) l
       (header_errors (stacks l) fields) (owner_warnings (VObj fields))
       (Normal (get (VObj fields) "stack")).
Proof.
  intros (Ht & Hs & Hv & Hst & Ho).
  unfold validateFrontMatter, header_errors.
  set (fm := VObj fields) in *.
  replace (owner_warnings fm)
    with ([] ++ [] ++ [] ++ [] ++ [] ++ [] ++ owner_warnings fm ++ [])%list
    by (simpl; now rewrite app_nil_r).
  replace (status_errors fm) with (status_errors fm ++ [] ++ [])%list
    by (now rewrite app_nil_r).
  eapply adds_bind; [apply required_fields_adds|].
  eapply adds_bind.
  { unfold cartridge_errors.
    destruct (get fm "cartridge") as [| |[|]| | | | |];
      first [apply adds_ret | apply error_adds]. }
  eapply adds_bind; [now apply tier_adds|].
  eapply adds_bind.
  { pose proof (stack_adds fm (add_findings
       (missing_fields fields ++ cartridge_errors fm ++ tier_errors fm) [] l) Hs) as H.
    simpl stacks in H. rewrite <- !add_findings_add with (W1 := []) (W2 := []) in H.
    exact H. }
  eapply adds_bind; [now apply version_adds|].
  eapply adds_bind; [now apply status_adds|].
  eapply adds_bind; [now apply owner_adds|].
  apply adds_ret.
Qed.

End Header_facts.

(** * The claims *)

Section FrontMatterClaims.

Import JS Value Header Header_facts.

Variable yaml_load : string -> Completion value.
Variable regexp_i : string -> option (string -> bool).
Variable fault_message : fault -> string.

Lemma nonempty_exits (l : CartridgeLinter) (e : Finding) :
  report (add_findings [e] [] l) = (add_findings [e] [] l, Exited 1).
Proof.
  unfold report, hasErrors, add_findings. simpl. rewrite length_app. simpl.
  now rewrite Nat.add_1_r.
Qed.

(** C10.  The header block is recognised only at offset zero: when the text
    of the document does not begin with the marker line, [lint] pushes the
    one error [Missing front matter], pushes nothing else, whatever the
    parser and the registry are, and ends the process through [report]. *)
Theorem C10_front_matter_only_at_offset_zero
    (fs : string -> entry) (filePath content : string) (l : CartridgeLinter) :
  fs filePath = File content ->
  startsWith content ("---" ++ String nl "") = false ->
  lint yaml_load regexp_i fault_message fs filePath l
  = (add_findings [finding "Missing front matter"] [] l, Exited 1).
Proof.
  intros Hfile Hstart. unfold lint, lint_checks, Pattern.frontMatterMatch.
  rewrite Hfile, Hstart, error_adds. apply nonempty_exits.
Qed.

(** C3 (amended).  When the text between the markers is no key/value data,
    because the parser throws or because it yields a scalar or nothing, on
    which the first field test throws, [lint] pushes the one error that
    carries the cause and nothing else: the section, compliance and
    section-specific checks sit in the same [try] block behind the parser and
    do not run. *)
Theorem C3_parse_failure_stops_every_check
    (fs : string -> entry) (filePath content captured : string) (matched : nat)
    (cause : exn) (l : CartridgeLinter) :
  fs filePath = File content ->
  Pattern.frontMatterMatch content = Some (captured, matched) ->
  not_key_value yaml_load captured cause ->
  lint yaml_load regexp_i fault_message fs filePath l
  = (add_findings
       [finding ("Invalid YAML in front matter: " ++ err_message fault_message cause)]
       [] l,
     Exited 1).
Proof.
  intros Hfile Hmatch Hyaml. unfold lint, lint_checks.
  rewrite Hfile, Hmatch. unfold lint_try.
  destruct Hyaml as [Hyaml | (v & Hyaml & Hin)].
  - unfold bind, lift. rewrite Hyaml.
    rewrite error_adds. apply nonempty_exits.
  - unfold bind at 1. unfold lift at 1. rewrite Hyaml.
    unfold bind at 1. unfold validateFrontMatter, requiredFields.
    cbn [for_each]. unfold bind at 1. unfold bind at 1. unfold bind at 1.
    unfold lift at 1. rewrite Hin.
    rewrite error_adds. apply nonempty_exits.
Qed.

(** C7 (amended).  Scenario A with the [name] field present: [cartridge:
    true], [tier: prototype], a stack identifier that is not empty and that
    the lookup [this.stacks[...]] does not find (it is no key of the
    registry and no name the registry inherits, as [constructor] or
    [toString] are), [version: 1.0] (the number 1 for js-yaml, or the quoted
    text), [status: stable] and no [owner].  The front-matter checks push
    exactly three errors, for the missing owner, the unknown stack and the
    version, in that order, and no warning. *)
Theorem C7_scenario_A_with_name
    (l : CartridgeLinter) (fields : list (string * value))
    (name version : value) (id : string) :
  get_own fields "cartridge" = Some (VBool true) ->
  get_own fields "name" = Some name ->
  get_own fields "tier" = Some (VStr "prototype") ->
  get_own fields "stack" = Some (VStr id) ->
  id <> "" ->
  Registry_ops.lookup (stacks l) id = Missing ->
  get_own fields "version" = Some version ->
  version = VNum "1" \/ version = VStr "1.0" ->
  get_own fields "status" = Some (VStr "stable") ->
  get_own fields "owner" = None ->
  validateFrontMatter (VObj fields) l
  = (add_findings
       [ finding "Missing required front matter field: owner";
         unknown_stack (stacks l) id;
         version_error (to_text version) ] [] l,
     Normal (VStr id)).
Proof.
  intros Hc Hn Ht Hs Hne Hl Hv Hver Hst Ho.
  apply String.eqb_neq in Hne.
  assert (Hsc : scalar_header fields).
  { unfold scalar_header, get. rewrite Ht, Hs, Hv, Hst, Ho.
    destruct Hver as [-> | ->]; repeat split; reflexivity. }
  pose proof (validateFrontMatter_scalars fields l Hsc) as H.
  unfold adds in H. rewrite H. clear H. f_equal.
  - f_equal.
    + unfold header_errors, missing_fields, present, requiredFields,
        cartridge_errors, tier_errors, stack_errors, version_errors, status_errors, get.
      cbn [filter map app].
      rewrite Hc, Hn, Ht, Hs, Hv, Hst, Ho.
      cbn [negb filter map app to_text to_string truthy]. rewrite Hne, Hl.
      destruct Hver as [-> | ->]; reflexivity.
    + unfold owner_warnings, get. now rewrite Ho.
  - unfold get. now rewrite Hs.
Qed.

End FrontMatterClaims.

(** C10, on a well-formed cartridge behind one blank line. *)
Lemma C10_witness :
  Docs.lint_text (String JS.nl (Docs.cartridge Docs.valid_header Docs.full_body)) Docs.linter
  = (add_findings [finding "Missing front matter"] [] Docs.linter, Exited 1).
Proof.
  apply (C10_front_matter_only_at_offset_zero Docs.yaml_load Sample.regexp
           Sample.fault_text
           (Docs.holding (String JS.nl (Docs.cartridge Docs.valid_header Docs.full_body)))
           "cartridge.md"
           (String JS.nl (Docs.cartridge Docs.valid_header Docs.full_body))
           Docs.linter);
    reflexivity.
Defined.

(** C3 (amended), on a header with an unclosed flow sequence. *)
Lemma C3_witness :
  Docs.lint_text (Docs.cartridge Docs.broken_header Docs.full_body) Docs.linter
  = (add_findings
       [finding "Invalid YAML in front matter: unexpected end of the stream within a flow collection"]
       [] Docs.linter,
     Exited 1).
Proof.
  apply (C3_parse_failure_stops_every_check Docs.yaml_load Sample.regexp
           Sample.fault_text
           (Docs.holding (Docs.cartridge Docs.broken_header Docs.full_body))
           "cartridge.md"
           (Docs.cartridge Docs.broken_header Docs.full_body)
           Docs.broken_header 24
           (LibraryError "unexpected end of the stream within a flow collection")
           Docs.linter);
    try reflexivity.
  left. reflexivity.
Defined.

(** C3 as stated fails: the header does not parse, the body lacks every
    required section, the Section Structure Validator run on that body
    reports the missing Purpose section, and the findings of [lint] do not
    contain that error. *)
Lemma C3_counterexample :
  let body := String JS.nl "no headings here" in
  let after := fst (Docs.lint_text (Docs.cartridge Docs.broken_header body) Docs.linter) in
  existsb (fun f => String.eqb (message f) "Missing required section: ## Purpose")
          (errors (fst (validateSections body Docs.linter))) = true
  /\ existsb (fun f => String.eqb (message f) "Missing required section: ## Purpose")
             (errors after) = false
  /\ length (errors after) = 1.
Proof. repeat split; vm_compute; reflexivity. Qed.

(** C7 (amended), on the scenario with a name. *)
Lemma C7_witness :
  validateFrontMatter (VObj Docs.scenario_A_named_fields) Docs.linter
  = (add_findings
       [ finding "Missing required front matter field: owner";
         Header.unknown_stack (stacks Docs.linter) "django-htmx";
         version_error "1" ] [] Docs.linter,
     Normal (VStr "django-htmx")).
Proof.
  apply (C7_scenario_A_with_name Docs.linter Docs.scenario_A_named_fields
           (VStr "Demo") (VNum "1") "django-htmx");
    try reflexivity.
  - discriminate.
  - left. reflexivity.
Defined.

(** C7 as stated fails: the header of scenario A, with exactly the fields the
    scenario lists, also lacks [name], and the checks push four errors. *)
Lemma C7_counterexample :
  errors (fst (validateFrontMatter (VObj Docs.scenario_A_fields) Docs.linter))
  = [ finding "Missing required front matter field: name";
      finding "Missing required front matter field: owner";
      finding "Unknown stack: django-htmx. Available stacks: next-react-trpc-prisma";
      finding "Invalid version format: 1. Use semver (e.g., 1.0.0)" ]
  /\ warnings (fst (validateFrontMatter (VObj Docs.scenario_A_fields) Docs.linter)) = []
  /\ Docs.yaml_load Docs.scenario_A_header = Normal (VObj Docs.scenario_A_fields).
Proof. repeat split; vm_compute; reflexivity. Qed.

(** ** Section order (C2) *)

(** C2 (amended).  For every body, the order warnings [validateSections]
    pushes are those of the required-prefix sections, in discovery order,
    whose expected index is below the expected index of the section just
    before them in the filtered list (the loop keeps the last index, not a
    running maximum).  Sections in canonical order give no order warning; a
    filtered list that is in canonical order but for two neighbours taken in
    the wrong order gives exactly one, and it cites the section that comes
    earlier in the canonical list and appears later in the body. *)
Theorem C2_order_warnings_follow_last_index (content : string) (l : CartridgeLinter) :
  let emitted := warnings (fst (validateSections content l)) in
  let sections := orderedSections content in
  emitted = (warnings l ++ map order_finding (descents sections))%list
  /\ (ascending (map expectedIndex sections) = true -> emitted = warnings l)
  /\ (forall (pre post : list string) (a b : string),
        sections = (pre ++ b :: a :: post)%list ->
        ascending (map expectedIndex (pre ++ a :: b :: post)) = true ->
        (expectedIndex a < expectedIndex b)%Z ->
        emitted = (warnings l ++ [order_finding a])%list).
Proof.
  intros emitted sections.
  assert (He : emitted
               = (warnings l ++ order_warnings (-1) sections)%list).
  { unfold emitted. now rewrite (validateSections_adds content l). }
  rewrite He. clear He emitted. unfold sections. clear sections.
  split; [|split].
  - now rewrite order_warnings_descents.
  - intros H. rewrite order_warnings_ascending; [apply app_nil_r|].
    destruct (orderedSections content) as [|s rest]; [reflexivity|].
    simpl map in *. change (ascending (-1 :: expectedIndex s :: map expectedIndex rest))%Z
      with ((-1 <=? expectedIndex s)%Z && ascending (expectedIndex s :: map expectedIndex rest)).
    rewrite H.
    pose proof (findIndex_lower_bound (fun rs => JS.startsWith s rs) REQUIRED_SECTIONS) as Hlb.
    fold (expectedIndex s) in Hlb.
    apply andb_true_iff. split; [apply Z.leb_le; exact Hlb|reflexivity].
  - intros pre post a b -> Hasc Hab. f_equal.
    apply order_warnings_swap; [|exact Hab].
    destruct pre as [|p pre]; simpl map in *; simpl app in *.
    + change (ascending (-1 :: expectedIndex a :: expectedIndex b :: map expectedIndex post))%Z
        with ((-1 <=? expectedIndex a)%Z
              && ascending (expectedIndex a :: expectedIndex b :: map expectedIndex post)).
      rewrite Hasc. apply andb_true_iff. split; [|reflexivity].
      apply Z.leb_le.
      apply (findIndex_lower_bound (fun rs => JS.startsWith a rs) REQUIRED_SECTIONS).
    + change (ascending (-1 :: expectedIndex p :: map expectedIndex (pre ++ a :: b :: post)))%Z
        with ((-1 <=? expectedIndex p)%Z
              && ascending (expectedIndex p :: map expectedIndex (pre ++ a :: b :: post))).
      rewrite Hasc. apply andb_true_iff. split; [|reflexivity].
      apply Z.leb_le.
      apply (findIndex_lower_bound (fun rs => JS.startsWith p rs) REQUIRED_SECTIONS).
Qed.

(** C2 as stated fails.  In the first body the third section, Stack
    Contract, has expected index 1, below the running maximum 5 that
    Guardrails set, and the code pushes no warning for it.  In the second
    body two required sections are swapped and the one warning cites
    Purpose, the earlier-canonical, later-appearing section, not Stack
    Contract.  In the third body Purpose and Inputs are swapped around two
    sections that keep their places, and two warnings are pushed. *)
Lemma C2_counterexample :
  let body1 := "## Guardrails
## Purpose
## Stack Contract" in
  let body2 := "## Stack Contract
## Purpose" in
  let body3 := "## Inputs
## Stack Contract
## Development Style
## Purpose" in
  warnings (fst (validateSections body1 Docs.linter)) = [order_finding "Purpose"]
  /\ order_warnings_running_max (-1) (orderedSections body1)
     = [order_finding "Purpose"; order_finding "Stack Contract"]
  /\ warnings (fst (validateSections body2 Docs.linter)) = [order_finding "Purpose"]
  /\ warnings (fst (validateSections body3 Docs.linter))
     = [order_finding "Stack Contract"; order_finding "Purpose"].
Proof. repeat split; vm_compute; reflexivity. Qed.

(** C2 (amended), on a body where Purpose and Stack Contract are swapped. *)
Lemma C2_witness :
  warnings (fst (validateSections "## Stack Contract
## Purpose
## Inputs" Docs.linter))
  = (warnings Docs.linter ++ [order_finding "Purpose"])%list.
Proof.
  apply (proj2 (proj2 (C2_order_warnings_follow_last_index "## Stack Contract
## Purpose
## Inputs" Docs.linter)) [] ["Inputs"] "Purpose" "Stack Contract");
    reflexivity.
Defined.

(** ** Section extraction (C9) *)

(** C9 (amended).  [extractSection] opens the section at the first level-2
    heading line that contains the name anywhere in the line, collects the
    lines that follow, passes over later heading lines that contain the
    name, and stops at the first heading line that does not contain it, or
    at the end of the text.  When no heading line contains the name the
    result is empty, and the Quality-Gate and Examples checkers then leave
    the linter as it was. *)
Theorem C9_extraction_by_containment (content sectionName : string) :
  let lines := JS.split JS.nl content in
  let kept := fun mid => JS.join (String JS.nl "")
                           (filter (fun line => negb (is_heading line)) mid) in
  (forall (pre mid post : list string) (heading stop : string),
      lines = (pre ++ heading :: mid ++ stop :: post)%list ->
      forallb (fun line => negb (opens sectionName line)) pre = true ->
      opens sectionName heading = true ->
      forallb (fun line => negb (is_heading line) || JS.includes line sectionName) mid = true ->
      is_heading stop = true -> JS.includes stop sectionName = false ->
      extractSection content sectionName = kept mid)
  /\ (forall (pre mid : list string) (heading : string),
      lines = (pre ++ heading :: mid)%list ->
      forallb (fun line => negb (opens sectionName line)) pre = true ->
      opens sectionName heading = true ->
      forallb (fun line => negb (is_heading line) || JS.includes line sectionName) mid = true ->
      extractSection content sectionName = kept mid)
  /\ (forallb (fun line => negb (opens sectionName line)) lines = true ->
      extractSection content sectionName = "")
  /\ (forall l : CartridgeLinter,
      forallb (fun line => negb (opens "Quality Gates" line)) (JS.split JS.nl content) = true ->
      validateQualityGates content l = (l, Normal tt))
  /\ (forall l : CartridgeLinter,
      forallb (fun line => negb (opens "Examples" line)) (JS.split JS.nl content) = true ->
      validateExamples content l = (l, Normal tt)).
Proof.
  intros lines kept. unfold kept, lines. clear kept lines.
  repeat split.
  - intros pre mid post heading stop Hl Hpre Hh Hmid Hs1 Hs2.
    unfold extractSection. rewrite Hl.
    rewrite (extract_loop_opens _ _ _ _ Hpre Hh).
    rewrite (extract_loop_inside _ _ _ Hmid).
    rewrite (extract_loop_closes _ _ _ Hs1 Hs2). now rewrite app_nil_r.
  - intros pre mid heading Hl Hpre Hh Hmid.
    unfold extractSection. rewrite Hl.
    rewrite (extract_loop_opens _ _ _ _ Hpre Hh).
    rewrite <- (app_nil_r mid) at 1.
    rewrite (extract_loop_inside _ _ _ Hmid). simpl. now rewrite app_nil_r.
  - intros H. unfold extractSection. now rewrite (extract_loop_not_opened _ _ H).
  - intros l H. unfold validateQualityGates, extractSection.
    now rewrite (extract_loop_not_opened _ _ H).
  - intros l H. unfold validateExamples, extractSection.
    now rewrite (extract_loop_not_opened _ _ H).
Qed.

(** C9 (amended), on a body with an Examples section between two others. *)
Lemma C9_witness :
  extractSection "## Inputs
none
## Examples
```ts
```
## Version History
1.0.0" "Examples" = "```ts
```".
Proof.
  apply (proj1 (C9_extraction_by_containment _ "Examples")
           ["## Inputs"; "none"] ["```ts"; "```"] ["1.0.0"]
           "## Examples" "## Version History");
    reflexivity.
Defined.

(** C9 as stated fails.  In the first body a heading that merely contains
    the name opens the section, and the heading whose title starts with the
    name does not close it: the code returns both texts, the rule of the
    specification the second one.  In the second body no heading has a
    title that starts with the name, the rule of the specification yields
    nothing, and the Examples checker still runs and reports an error. *)
Lemma C9_counterexample :
  let body1 := "## Non-Examples
foo
## Examples
bar
## Version History" in
  let body2 := "## Non-Examples
foo" in
  extractSection body1 "Examples" = "foo
bar"
  /\ extractSection_by_title body1 "Examples" = "bar"
  /\ after_first_titled "Examples" (JS.split JS.nl body2) = None
  /\ errors (fst (validateExamples body2 Docs.linter))
     = [finding "Examples section must include code blocks"].
Proof. repeat split; vm_compute; reflexivity. Qed.

(** ** Loading the registry (C5) *)

Section LoadingClaims.

Import Value Registry_ops.

Variable yaml_load : string -> Completion value.
Variable fault_message : fault -> string.

(** C5 (amended).  Loading N valid stack-profile files whose identifiers are
    pairwise distinct records no error and yields a registry with exactly N
    entries, keyed by the declared identifiers, each identifier leading to
    the profile of its file.  Loading two valid files that declare the same
    identifier is no error either: one entry remains, and it holds the
    profile of the file read last. *)
Theorem C5_registry_of_valid_files (files : list ProfileFile) :
  Forall (valid_profile yaml_load) files ->
  NoDup (map file_id files) ->
  let loaded := new_CartridgeLinter yaml_load fault_message (Listing (map as_listed files)) in
  (snd loaded = Normal tt /\ errors (fst loaded) = []
   /\ length (entries (stacks (fst loaded))) = length files
   /\ Permutation (keys (stacks (fst loaded))) (map file_id files)
   /\ forall f, In f files ->
        lookup (stacks (fst loaded)) (file_id f) = Found (VObj (file_fields f)))
  /\ (forall f g : ProfileFile,
        valid_profile yaml_load f -> valid_profile yaml_load g ->
        file_id f = file_id g ->
        let twice := new_CartridgeLinter yaml_load fault_message
                       (Listing [as_listed f; as_listed g]) in
        snd twice = Normal tt /\ errors (fst twice) = []
        /\ entries (stacks (fst twice)) = [(file_id g, VObj (file_fields g))]).
Proof.
  intros Hvalid Hnodup loaded. split.
  - unfold loaded, new_CartridgeLinter. rewrite (load_all_valid _ _ _ _ Hvalid).
    cbn [fst snd errors stacks entries Registry_ops.empty proto].
    assert (Hperm : Permutation (map fst (put_all files [])) (map file_id files)).
    { apply (put_all_keys files [] Hnodup). reflexivity. }
    repeat split.
    + rewrite <- (length_map fst), <- (length_map file_id files).
      now apply Permutation_length.
    + exact Hperm.
    + intros f Hin. unfold lookup. cbn [entries].
      now rewrite (put_all_finds files [] f Hnodup Hin).
  - intros f g Hf Hg Hid twice. unfold twice, new_CartridgeLinter.
    change [as_listed f; as_listed g] with (map as_listed [f; g]).
    rewrite (load_all_valid yaml_load fault_message [f; g])
      by (constructor; [exact Hf | constructor; [exact Hg | constructor]]).
    cbn [fst snd errors stacks entries Registry_ops.empty proto put_all fold_left].
    repeat split. rewrite Hid.
    assert (H1 : put (file_id g) (VObj (file_fields f)) []
                 = [(file_id g, VObj (file_fields f))]).
    { unfold put. cbn [get_own]. destruct (array_index (file_id g)); reflexivity. }
    rewrite H1. unfold put. cbn [get_own]. rewrite String.eqb_refl.
    cbn [replace]. now rewrite String.eqb_refl.
Qed.

End LoadingClaims.

(** C5 (amended), on two profiles with different identifiers. *)
Lemma C5_witness :
  let loaded := new_CartridgeLinter Docs.yaml_load Sample.fault_text
                  (Listing (map as_listed Docs.two_files)) in
  snd loaded = Normal tt /\ errors (fst loaded) = []
  /\ length (entries (stacks (fst loaded))) = 2.
Proof.
  assert (Hvalid : Forall (valid_profile Docs.yaml_load) Docs.two_files).
  { repeat constructor; discriminate. }
  assert (Hnodup : NoDup (map file_id Docs.two_files)).
  { repeat constructor; simpl; intros H;
      repeat (destruct H as [H|H]; [discriminate H|]); exact H. }
  destruct (proj1 (C5_registry_of_valid_files Docs.yaml_load Sample.fault_text
                     Docs.two_files Hvalid Hnodup)) as (H1 & H2 & H3 & _).
  exact (conj H1 (conj H2 H3)).
Defined.

(** C5 as stated fails: two files declare the same identifier, no error is
    recorded, and of the two profiles one entry remains, the second. *)
Lemma C5_counterexample :
  let loaded := new_CartridgeLinter Docs.yaml_load Sample.fault_text Docs.duplicated_dir in
  snd loaded = Normal tt /\ errors (fst loaded) = []
  /\ entries (stacks (fst loaded))
     = [("next-react-trpc-prisma", Docs.duplicate_profile)].
Proof. repeat split; vm_compute; reflexivity. Qed.

(** ** What a second validation sees (C4) *)

Lemma uniform_ret {A : Type} (a : A) : uniform (ret a).
Proof.
  intros r. exists [], [], (Normal a). intros P Q. unfold ret. now rewrite !app_nil_r.
Qed.

Lemma uniform_lift {A : Type} (c : Completion A) : uniform (lift c).
Proof.
  intros r. exists [], [], c. intros P Q. unfold lift. now rewrite !app_nil_r.
Qed.

Lemma uniform_throw {A : Type} (e : exn) : uniform (@throw A e).
Proof.
  intros r. exists [], [], (Throw e). intros P Q. unfold throw. now rewrite !app_nil_r.
Qed.

Lemma uniform_the_stacks : uniform the_stacks.
Proof.
  intros r. exists [], [], (Normal r). intros P Q. unfold the_stacks. simpl.
  now rewrite !app_nil_r.
Qed.

Lemma uniform_error (msg : string) : uniform (error msg).
Proof.
  intros r. exists [finding msg], [], (Normal tt). intros P Q.
  unfold error, mk. simpl. now rewrite app_nil_r.
Qed.

Lemma uniform_warning (msg : string) : uniform (warning msg).
Proof.
  intros r. exists [], [finding msg], (Normal tt). intros P Q.
  unfold warning, mk. simpl. now rewrite app_nil_r.
Qed.

Lemma uniform_bind {A B : Type} (m : M A) (k : A -> M B) :
  uniform m -> (forall a, uniform (k a)) -> uniform (bind m k).
Proof.
  intros Hm Hk r. destruct (Hm r) as (E1 & W1 & c1 & H1).
  destruct c1 as [a|e].
  - destruct (Hk a r) as (E2 & W2 & c2 & H2).
    exists (E1 ++ E2)%list, (W1 ++ W2)%list, c2. intros P Q.
    unfold bind. rewrite H1, H2. now rewrite !app_assoc.
  - exists E1, W1, (Throw e). intros P Q. unfold bind. now rewrite H1.
Qed.

Lemma uniform_when (b : bool) (m : M unit) : uniform m -> uniform (when b m).
Proof. destruct b; simpl; [auto|intros _; apply uniform_ret]. Qed.

Lemma uniform_for_each {A : Type} (xs : list A) (body : A -> M unit) :
  (forall x, uniform (body x)) -> uniform (for_each xs body).
Proof.
  intros H. induction xs as [|x xs IH]; simpl.
  - apply uniform_ret.
  - apply uniform_bind; [apply H|intros _; exact IH].
Qed.

Lemma uniform_order_loop (lastIndex : Z) (sections : list string) :
  uniform (order_loop lastIndex sections).
Proof.
  revert lastIndex. induction sections as [|s rest IH]; intros lastIndex; simpl.
  - apply uniform_ret.
  - apply uniform_bind; [|intros _; apply IH].
    apply uniform_when, uniform_warning.
Qed.

Ltac uniform_step :=
  first
    [ apply uniform_ret | apply uniform_lift | apply uniform_throw
    | apply uniform_the_stacks | apply uniform_error | apply uniform_warning
    | apply uniform_order_loop
    | apply uniform_when
    | apply uniform_for_each; intros ?
    | apply uniform_bind; [|intros ?]
    | match goal with
      | |- uniform (if ?b then _ else _) => destruct b
      | |- uniform (match ?x with _ => _ end) => destruct x
      end ].

Lemma uniform_validateFrontMatter (frontMatter : value) :
  uniform (validateFrontMatter frontMatter).
Proof. unfold validateFrontMatter. cbv zeta. repeat uniform_step. Qed.

Lemma uniform_validateSections (content : string) : uniform (validateSections content).
Proof. unfold validateSections. cbv zeta. repeat uniform_step. Qed.

Lemma uniform_validateQualityGates (content : string) :
  uniform (validateQualityGates content).
Proof. unfold validateQualityGates. cbv zeta. repeat uniform_step. Qed.

Lemma uniform_validateExamples (content : string) : uniform (validateExamples content).
Proof. unfold validateExamples. cbv zeta. repeat uniform_step. Qed.

Section Accumulation.

Variable yaml_load : string -> Completion value.
Variable regexp_i : string -> option (string -> bool).
Variable fault_message : fault -> string.

Lemma uniform_validateStackCompliance (content : string) (stackName : value) :
  uniform (validateStackCompliance regexp_i content stackName).
Proof. unfold validateStackCompliance. cbv zeta. repeat uniform_step. Qed.

Lemma uniform_lint_try (content captured : string) (matched : nat) :
  uniform (lint_try yaml_load regexp_i content captured matched).
Proof.
  unfold lint_try. cbv zeta.
  apply uniform_bind; [apply uniform_lift|intros frontMatter].
  apply uniform_bind; [apply uniform_validateFrontMatter|intros stackName].
  apply uniform_bind; [apply uniform_validateSections|intros _].
  apply uniform_bind; [apply uniform_validateStackCompliance|intros _].
  apply uniform_bind; [apply uniform_validateQualityGates|intros _].
  apply uniform_validateExamples.
Qed.

Lemma lint_checks_uniform (fs : string -> entry) (filePath : string) :
  uniform (lint_checks yaml_load regexp_i fault_message fs filePath).
Proof.
  intros r. unfold lint_checks. destruct (fs filePath) as [|content|e].
  - apply uniform_error.
  - destruct (Pattern.frontMatterMatch content) as [[captured matched]|].
    + destruct (uniform_lint_try content captured matched r) as (E & W & c & H).
      destruct c as [u|err].
      * exists E, W, (Normal tt). intros P Q. now rewrite H.
      * exists (E ++ [finding ("Invalid YAML in front matter: "
                               ++ err_message fault_message err)])%list, W, (Normal tt).
        intros P Q. rewrite H. unfold error, mk, finding. simpl.
        now rewrite app_assoc.
    + apply uniform_error.
  - exists [], [], (Throw e). intros P Q. now rewrite !app_nil_r.
Qed.

End Accumulation.

Section IdempotenceClaim.

Variable yaml_load : string -> Completion value.
Variable regexp_i : string -> option (string -> bool).
Variable fault_message : fault -> string.

Lemma report_ending (l : CartridgeLinter) :
  report l = (l, ending (Normal tt) (errors l)).
Proof.
  unfold report, hasErrors, ending. destruct (errors l); reflexivity.
Qed.

(** C4 (amended).  Over a given registry, a validation of a given document
    adds findings [E] and [W] that do not depend on what the linter already
    holds; it appends them to the errors [P] and warnings [Q] held, and
    ends according to the whole list of errors.  Hence two linters that
    hold the same findings over the same registry, two fresh ones in
    particular, end alike with equal findings, whereas a second validation
    on the same linter holds the findings of the first call followed by the
    same findings once more. *)
Theorem C4_validation_appends_to_held_findings
    (fs : string -> entry) (filePath : string) (r : Registry) :
  exists (E W : list Finding) (c : Completion unit),
    (forall P Q : list Finding,
        lint yaml_load regexp_i fault_message fs filePath (mk P Q r)
        = (mk (P ++ E) (Q ++ W) r, ending c (P ++ E)))
    /\ (forall P Q : list Finding,
        fst (lint yaml_load regexp_i fault_message fs filePath
               (fst (lint yaml_load regexp_i fault_message fs filePath (mk P Q r))))
        = mk (P ++ E ++ E) (Q ++ W ++ W) r).
Proof.
  destruct (lint_checks_uniform yaml_load regexp_i fault_message fs filePath r)
    as (E & W & c & H).
  exists E, W, c.
  assert (Hlint : forall P Q : list Finding,
             lint yaml_load regexp_i fault_message fs filePath (mk P Q r)
             = (mk (P ++ E) (Q ++ W) r, ending c (P ++ E))).
  { intros P Q. unfold lint. rewrite H. destruct c as [[]|e]; [|reflexivity].
    apply report_ending. }
  split; [exact Hlint|].
  intros P Q. rewrite Hlint. cbn [fst]. rewrite Hlint. cbn [fst].
  now rewrite <- !app_assoc.
Qed.

End IdempotenceClaim.

(** C4 as stated fails.  The document is valid but for one untagged fence.
    Both calls on the same linter return the same object of references to
    the linter's arrays; read when the first call returns it holds one
    warning, read when the second call returns it holds two. *)
Lemma C4_counterexample :
  let doc := Docs.cartridge Docs.valid_header Docs.full_body in
  let untagged :=
    finding "Code blocks in Examples should specify a language (e.g., ```typescript)" in
  let shared := {| valid := true; report_errors := ErrorsArray;
                   report_warnings := WarningsArray |} in
  let first := Docs.lint_text doc Docs.linter in
  let second := Docs.lint_text doc (fst first) in
  snd first = Returned shared
  /\ snd second = Returned shared
  /\ view (fst first) shared = (true, [], [untagged])
  /\ view (fst second) shared = (true, [], [untagged; untagged]).
Proof. repeat split; vm_compute; reflexivity. Qed.

(** ** Unknown stacks (C1) *)

Section UnknownStack.

Import Value Header Header_facts.

Variable regexp_i : string -> option (string -> bool).

(** the scanner returns at once when the lookup finds nothing *)
Lemma scan_skipped (content : string) (id : string) (l : CartridgeLinter) :
  Registry_ops.lookup (stacks l) id = Missing ->
  validateStackCompliance regexp_i content (VStr id) l = (l, Normal tt).
Proof.
  intros H. unfold validateStackCompliance.
  destruct (negb (truthy (VStr id))); [reflexivity|].
  unfold bind, lift, the_stacks. cbn [to_string]. now rewrite H.
Qed.

(** When the lookup of the declared stack finds nothing, own or inherited,
    the front-matter checks push the error that lists the keys of the
    registry, and the scanner, given the identifier they return, adds
    nothing. *)
Lemma unknown_stack_reported_and_scan_skipped
    (fields : list (string * value)) (id content : string) (l : CartridgeLinter) :
  scalar_header fields ->
  get_own fields "stack" = Some (VStr id) ->
  id <> "" ->
  Registry_ops.lookup (stacks l) id = Missing ->
  let checked := validateFrontMatter (VObj fields) l in
  snd checked = Normal (VStr id)
  /\ In (unknown_stack (stacks l) id) (errors (fst checked))
  /\ validateStackCompliance regexp_i content (VStr id) (fst checked)
     = (fst checked, Normal tt).
Proof.
  intros Hsc Hs Hne Hl checked. unfold checked.
  rewrite (validateFrontMatter_scalars fields l Hsc).
  cbn [fst snd]. unfold get at 1. rewrite Hs. split; [reflexivity|]. split.
  - cbn [errors add_findings]. apply in_or_app. right.
    unfold header_errors. do 3 (apply in_or_app; right). apply in_or_app. left.
    unfold stack_errors, get. rewrite Hs. cbn [to_text to_string truthy].
    apply String.eqb_neq in Hne. rewrite Hne, Hl. now left.
  - apply scan_skipped. exact Hl.
Qed.

End UnknownStack.

(** C1 fails on the code for identifiers that name a member of
    [Object.prototype].  The registry holds one stack; the header declares
    the stack [constructor], which is no key of the registry; the lookup
    [this.stacks[...]] finds the inherited member, so no unknown-stack error
    is recorded and the scanner is not skipped.  The only finding is the
    warning for the untagged fence, and the document is reported valid. *)
Theorem C1_inherited_name_is_taken_for_a_stack :
  let doc := Docs.cartridge Docs.inherited_header Docs.full_body in
  Docs.yaml_load Docs.inherited_header = Normal (VObj Docs.inherited_fields)
  /\ Registry_ops.keys (stacks Docs.linter) = ["next-react-trpc-prisma"]
  /\ Registry_ops.lookup (stacks Docs.linter) "constructor" = Builtin "constructor"
  /\ errors (fst (Docs.lint_text doc Docs.linter)) = []
  /\ warnings (fst (Docs.lint_text doc Docs.linter))
     = [finding "Code blocks in Examples should specify a language (e.g., ```typescript)"]
  /\ snd (Docs.lint_text doc Docs.linter)
     = Returned {| valid := true; report_errors := ErrorsArray;
                   report_warnings := WarningsArray |}.
Proof. repeat split; vm_compute; reflexivity. Qed.

(** ** The tier of the Quality-Gate checker (C8) *)

(** without a line that contains [tier:] in the text it is given, the
    checker pushes no warning *)
Lemma quality_gates_without_tier_line (content : string) (l : CartridgeLinter) :
  find (fun line => JS.includes line "tier:") (JS.split JS.nl content) = None ->
  warnings (fst (validateQualityGates content l)) = warnings l.
Proof.
  intros H. unfold validateQualityGates. rewrite H.
  destruct (String.eqb (extractSection content "Quality Gates") ""); [reflexivity|].
  unfold bind, when.
  destruct (negb (JS.includes (extractSection content "Quality Gates") "```bash")
            && negb (JS.includes (extractSection content "Quality Gates") "```sh"));
    reflexivity.
Qed.

(** C8 fails on the code.  The header declares [tier: production]; the
    Quality Gates section holds a shell block with none of the words lint,
    typecheck, test.  [lint] hands the checker the body, the header
    stripped, the checker looks for the first line with [tier:] in what it
    is given, finds none, and pushes no warning about commands.  Given the
    whole text, header included, the same checker pushes the three
    warnings. *)
Theorem C8_tier_is_sought_in_the_body :
  let doc := Docs.cartridge Docs.valid_header Docs.full_body in
  let expected := fun cmd =>
    finding ("Expected command containing " ++ JS.dquote ++ cmd ++ JS.dquote
             ++ " in Quality Gates for production tier") in
  Value.get (VObj Docs.valid_fields) "tier" = VStr "production"
  /\ extractSection Docs.full_body "Quality Gates" = "```bash
pnpm build
```"
  /\ errors (fst (Docs.lint_text doc Docs.linter)) = []
  /\ warnings (fst (Docs.lint_text doc Docs.linter))
     = [finding "Code blocks in Examples should specify a language (e.g., ```typescript)"]
  /\ warnings (fst (validateQualityGates doc Docs.linter))
     = [expected "lint"; expected "typecheck"; expected "test"].
Proof. repeat split; vm_compute; reflexivity. Qed.

(** ** Documents on which the checks stay silent *)

Lemma for_each_quiet {A : Type} (xs : list A) (body : A -> M unit) (l : CartridgeLinter) :
  Forall (fun x => body x l = (l, Normal tt)) xs ->
  for_each xs body l = (l, Normal tt).
Proof.
  induction 1 as [|x xs Hx _ IH]; simpl; [reflexivity|].
  unfold bind. now rewrite Hx.
Qed.

Lemma findIndex_hit {A : Type} (p : A -> bool) (l : list A) (i : nat) :
  findIndex p l = Z.of_nat i -> exists x, nth_error l i = Some x /\ p x = true.
Proof.
  revert i. induction l as [|y l IH]; intros i; simpl.
  - lia.
  - destruct (p y) eqn:E.
    + intros H. assert (i = 0) by lia. subst i. exists y. now split.
    + destruct (findIndex p l <? 0)%Z eqn:E'; [lia|].
      intros H. destruct i as [|i]; [apply Z.ltb_ge in E'; lia|].
      apply (IH i). lia.
Qed.

Lemma fence_scan_includes (s : string) (skip : nat) :
  Pattern.fence_scan skip s <> [] -> JS.includes s "```" = true.
Proof.
  revert skip. induction s as [|c r IH]; intros skip H; [now destruct skip|].
  cbn [JS.includes]. destruct skip as [|k].
  - cbn [Pattern.fence_scan] in H. unfold JS.startsWith in H.
    destruct (String.prefix "```" (String c r)); [reflexivity|].
    rewrite (IH 0 H). apply orb_true_r.
  - cbn [Pattern.fence_scan] in H. rewrite (IH k H). apply orb_true_r.
Qed.

Lemma in_literals_member (s : string) (list : list string) :
  In s list -> Value.in_literals list (VStr s) = true.
Proof.
  intros H. unfold Value.in_literals. apply existsb_exists. exists s.
  split; [exact H|]. simpl. apply String.eqb_refl.
Qed.

(** eleven sections in canonical order: nothing is missing, nothing is out
    of order *)
Lemma canonical_sections_quiet (content : string) (l : CartridgeLinter) :
  map expectedIndex (orderedSections content) = canonical_indices ->
  validateSections content l = (l, Normal tt).
Proof.
  intros H. rewrite (validateSections_adds content l).
  assert (Hord : order_warnings (-1) (orderedSections content) = []).
  { apply order_warnings_ascending. rewrite H. reflexivity. }
  assert (Hmiss : missing_sections (foundSections content) = []).
  { unfold missing_sections.
    assert (Hall : forall name, In name REQUIRED_SECTIONS ->
              negb (existsb (fun s => JS.startsWith s name) (foundSections content)) = false).
    { intros name Hin. apply negb_false_iff, existsb_exists.
      destruct (In_nth_error _ _ Hin) as [i Hi].
      assert (Hlt : i < 11).
      { change 11 with (length REQUIRED_SECTIONS). apply nth_error_Some. congruence. }
      assert (Hidx : In (Z.of_nat i) (map expectedIndex (orderedSections content))).
      { rewrite H. unfold canonical_indices.
        do 11 (destruct i as [|i]; [simpl; tauto|]). lia. }
      apply in_map_iff in Hidx as (s & Hs & Hin').
      destruct (findIndex_hit _ _ _ Hs) as (x & Hx & Hp).
      rewrite Hi in Hx. injection Hx as <-.
      exists s. split; [|exact Hp].
      unfold orderedSections in Hin'. apply filter_In in Hin'. tauto. }
    revert Hall. generalize REQUIRED_SECTIONS as names.
    induction names as [|n names IH]; intros Hall; simpl; [reflexivity|].
    rewrite (Hall n (or_introl eq_refl)). apply IH.
    intros name Hn. apply Hall. now right. }
  rewrite Hord, Hmiss. simpl. now rewrite add_findings_nil.
Qed.

Section SilentChecks.

Import JS Value Header Header_facts.

Variable yaml_load : string -> Completion value.
Variable regexp_i : string -> option (string -> bool).
Variable fault_message : fault -> string.

Lemma compliance_quiet (content id : string) (l : CartridgeLinter) :
  id <> "" ->
  Registry_ops.slot_truthy (Registry_ops.lookup (stacks l) id) = true ->
  complies regexp_i content (Registry_ops.lookup (stacks l) id) ->
  validateStackCompliance regexp_i content (VStr id) l = (l, Normal tt).
Proof.
  intros Hne Hfound (terms & Hterms & Hclean & Hmentioned).
  apply String.eqb_neq in Hne.
  unfold validateStackCompliance. cbn [truthy to_string]. rewrite Hne. cbn [negb].
  unfold bind at 1. unfold lift at 1. unfold bind at 1. unfold the_stacks at 1.
  rewrite Hfound. cbn [negb].
  fold (forbidden_of (Registry_ops.lookup (stacks l) id)).
  fold (required_techs (Registry_ops.lookup (stacks l) id)).
  unfold bind at 1. unfold lift at 1. rewrite Hterms.
  unfold bind at 1. rewrite for_each_quiet.
  - apply for_each_quiet.
    eapply Forall_impl; [|exact Hmentioned].
    intros tech (name & test & Hn & Hr & Ht).
    fold (tech_name tech). unfold bind, lift, new_RegExp. rewrite Hn, Hr, Ht.
    reflexivity.
  - eapply Forall_impl; [|exact Hclean].
    intros term (t & Hs & Hsrc & Hvue & Hsvelte & Hredux).
    pose proof (proj1 (Forall_forall _ _) Hsrc) as Hall.
    destruct (Hall ("import.*from.*" ++ quote_class ++ ".*" ++ t ++ ".*" ++ quote_class))
      as (t1 & Hr1 & Ht1); [now left|].
    destruct (Hall ("require\(.*" ++ quote_class ++ ".*" ++ t ++ ".*" ++ quote_class ++ ".*\)"))
      as (t2 & Hr2 & Ht2); [right; now left|].
    destruct (Hall ("from.*" ++ quote_class ++ ".*" ++ t ++ ".*" ++ quote_class))
      as (t3 & Hr3 & Ht3); [right; right; now left|].
    unfold bind, lift, new_RegExp. rewrite Hs, Hr1, Hr2, Hr3.
    cbn [for_each]. unfold bind, when, ret.
    rewrite Ht1, Ht2, Ht3, Hvue, Hsvelte, Hredux. reflexivity.
Qed.

(** a header with the seven fields, each one valid: no finding *)
Lemma valid_header_quiet
    (fields : list (string * value)) (name : value)
    (tier id version owner status : string) (l : CartridgeLinter) :
  get_own fields "cartridge" = Some (VBool true) ->
  get_own fields "name" = Some name ->
  get_own fields "tier" = Some (VStr tier) -> In tier VALID_TIERS ->
  get_own fields "stack" = Some (VStr id) -> id <> "" ->
  Registry_ops.slot_truthy (Registry_ops.lookup (stacks l) id) = true ->
  get_own fields "version" = Some (VStr version) ->
  Pattern.semver_prefix version = true ->
  get_own fields "owner" = Some (VStr owner) -> startsWith owner "@" = true ->
  get_own fields "status" = Some (VStr status) -> In status VALID_STATUSES ->
  validateFrontMatter (VObj fields) l = (l, Normal (VStr id)).
Proof.
  intros Hc Hn Ht Htier Hs Hne Hfound Hv Hsem Ho Hat Hst Hstatus.
  apply String.eqb_neq in Hne.
  assert (Hsc : scalar_header fields).
  { unfold scalar_header, get. rewrite Ht, Hs, Hv, Hst, Ho. repeat split; reflexivity. }
  pose proof (validateFrontMatter_scalars fields l Hsc) as H.
  unfold adds in H. rewrite H. clear H.
  unfold get at 1. rewrite Hs.
  assert (HE : header_errors (stacks l) fields = []); [|
    assert (HW : owner_warnings (VObj fields) = []); [|
      now rewrite HE, HW, add_findings_nil]].
  - unfold header_errors, missing_fields, present, requiredFields,
      cartridge_errors, tier_errors, stack_errors, version_errors, status_errors, get.
    cbn [filter map app].
    rewrite Hc, Hn, Ht, Hs, Hv, Hst, Ho.
    cbn [negb filter map app to_text to_string].
    rewrite (in_literals_member _ _ Htier), (in_literals_member _ _ Hstatus).
    rewrite Hfound, Hsem. cbn [negb]. rewrite !andb_false_r. reflexivity.
  - unfold owner_warnings, get. rewrite Ho, Hat. cbn [negb]. now rewrite andb_false_r.
Qed.

End SilentChecks.

(** * Further properties *)

(** ** How [lint] ends *)

Section Endings.

Import JS Value Header Header_facts.

Variable yaml_load : string -> Completion value.
Variable regexp_i : string -> option (string -> bool).
Variable fault_message : fault -> string.

(** everything the checks throw is caught, but for a failing read *)
Lemma lint_checks_throws_only_on_read
    (fs : string -> entry) (filePath : string) (l l' : CartridgeLinter) (e : exn) :
  lint_checks yaml_load regexp_i fault_message fs filePath l = (l', Throw e) ->
  fs filePath = Unreadable e.
Proof.
  unfold lint_checks. destruct (fs filePath) as [|content|e0].
  - rewrite error_adds. discriminate.
  - destruct (Pattern.frontMatterMatch content) as [[captured matched]|].
    + destruct (lint_try yaml_load regexp_i content captured matched l) as [l1 [u|err]].
      * discriminate.
      * rewrite error_adds. discriminate.
    + rewrite error_adds. discriminate.
  - intros H. injection H as _ <-. reflexivity.
Qed.

(** X1.  [lint] hands back a report only for a linter without errors, and
    the report then says [valid: true] whatever the warnings are; it ends
    the process, with code 1, exactly when the linter holds an error; and
    the only exception it lets escape is one thrown by reading the file. *)
Theorem lint_endings (fs : string -> entry) (filePath : string) (l : CartridgeLinter) :
  match lint yaml_load regexp_i fault_message fs filePath l with
  | (l', Returned r) => view l' r = (true, [], warnings l')
  | (l', Exited code) => code = 1 /\ errors l' <> []
  | (_, Uncaught e) => fs filePath = Unreadable e
  end.
Proof.
  unfold lint.
  destruct (lint_checks yaml_load regexp_i fault_message fs filePath l) as [l' [u|e]] eqn:E.
  - unfold report, hasErrors, view, deref.
    destruct (errors l') as [|x xs] eqn:He; simpl.
    + now rewrite He.
    + rewrite He. split; [reflexivity|discriminate].
  - apply (lint_checks_throws_only_on_read _ _ _ _ _ E).
Qed.

(** X2.  A linter that already holds an error, such as the one the
    constructor records when the stacks directory is missing or a profile
    fails to load, never hands back a report: every validation ends the
    process with code 1, whatever the document, unless reading it throws. *)
Theorem held_error_fails_every_validation
    (fs : string -> entry) (filePath : string) (l : CartridgeLinter) :
  errors l <> [] ->
  snd (lint yaml_load regexp_i fault_message fs filePath l) = Exited 1
  \/ exists e, fs filePath = Unreadable e
               /\ snd (lint yaml_load regexp_i fault_message fs filePath l) = Uncaught e.
Proof.
  intros Hheld.
  destruct (lint_checks_uniform yaml_load regexp_i fault_message fs filePath (stacks l))
    as (E & W & c & H).
  specialize (H (errors l) (warnings l)).
  assert (Hl : mk (errors l) (warnings l) (stacks l) = l) by (destruct l; reflexivity).
  rewrite Hl in H. unfold lint. rewrite H.
  destruct c as [u|e].
  - left. unfold report, hasErrors. cbn [errors mk snd].
    destruct (errors l) as [|x xs]; [congruence|reflexivity].
  - right. exists e. split; [|reflexivity].
    apply (lint_checks_throws_only_on_read _ _ _ _ _ H).
Qed.

(** X3.  On a mapping, the seven required fields are all tested before
    anything else can push or throw: the errors the front-matter checks add
    begin with one error for each absent field, in the order of the list,
    whatever the other fields hold. *)
Theorem missing_fields_are_reported_first
    (fields : list (string * value)) (l : CartridgeLinter) :
  exists (E W : list Finding) (c : Completion value),
    validateFrontMatter (VObj fields) l
    = (add_findings (missing_fields fields ++ E) W l, c).
Proof.
  unfold validateFrontMatter.
  match goal with
  | |- exists E W c, bind ?m ?k l = _ =>
      assert (Hk : uniform (k tt))
  end.
  { cbv zeta. repeat uniform_step. }
  destruct (Hk (stacks l)) as (E & W & c & H).
  exists E, W, c. unfold bind at 1.
  rewrite (required_fields_adds fields l).
  specialize (H (errors l ++ missing_fields fields)%list (warnings l ++ [])%list).
  unfold add_findings at 1. unfold mk in H. rewrite H.
  unfold add_findings, mk. now rewrite !app_nil_r, app_assoc.
Qed.

(** X4.  An owner that is present, truthy and no string (a number, a list, a
    mapping, a date) makes [frontMatter.owner.startsWith] throw.  The errors
    of the fields checked before are kept, the exception is caught by
    [lint] and recorded as invalid YAML, and no check of the body runs. *)
Theorem owner_that_is_no_string
    (fs : string -> entry) (filePath content captured : string) (matched : nat)
    (fields : list (string * value)) (owner : value) (l : CartridgeLinter) :
  fs filePath = File content ->
  Pattern.frontMatterMatch content = Some (captured, matched) ->
  yaml_load captured = Normal (VObj fields) ->
  get_own fields "owner" = Some owner ->
  truthy owner = true -> is_string owner = false ->
  scalar (get (VObj fields) "tier") = true ->
  scalar (get (VObj fields) "stack") = true ->
  scalar (get (VObj fields) "version") = true ->
  scalar (get (VObj fields) "status") = true ->
  lint yaml_load regexp_i fault_message fs filePath l
  = (add_findings
       (header_errors (stacks l) fields
        ++ [finding ("Invalid YAML in front matter: "
                     ++ fault_message (NotAFunction "frontMatter.owner.startsWith"))])
       [] l,
     Exited 1).
Proof.
  intros Hfile Hmatch Hyaml Ho Htruthy Hstr Ht Hs Hv Hst.
  set (fm := VObj fields) in *.
  assert (Hfront : adds (validateFrontMatter fm) l
                     (header_errors (stacks l) fields) []
                     (Throw (EngineFault (NotAFunction "frontMatter.owner.startsWith")))).
  { unfold header_errors. fold fm.
    replace (status_errors fm) with (status_errors fm ++ [])%list by apply app_nil_r.
    change (adds (validateFrontMatter fm) l
              (missing_fields fields ++ cartridge_errors fm ++ tier_errors fm
               ++ stack_errors (stacks l) fm ++ version_errors fm
               ++ status_errors fm ++ [])
              ([] ++ [] ++ [] ++ [] ++ [] ++ [] ++ [])
              (Throw (EngineFault (NotAFunction "frontMatter.owner.startsWith")))).
    unfold validateFrontMatter. fold fm.
    eapply adds_bind; [apply required_fields_adds|].
    eapply adds_bind.
    { unfold cartridge_errors.
      destruct (get fm "cartridge") as [| |[|]| | | | |];
        first [apply adds_ret | apply error_adds]. }
    eapply adds_bind; [now apply tier_adds|].
    eapply adds_bind.
    { pose proof (stack_adds fm (add_findings
         (missing_fields fields ++ cartridge_errors fm ++ tier_errors fm) [] l) Hs) as H.
      simpl stacks in H. rewrite <- !add_findings_add with (W1 := []) (W2 := []) in H.
      exact H. }
    eapply adds_bind; [now apply version_adds|].
    eapply adds_bind; [now apply status_adds|].
    unfold adds, bind. cbv zeta.
    assert (Hget : get fm "owner" = owner) by (unfold fm, get; now rewrite Ho).
    rewrite Hget, Htruthy. cbn [when].
    destruct owner; try discriminate Hstr; unfold throw; now rewrite add_findings_nil. }
  unfold lint, lint_checks. rewrite Hfile, Hmatch.
  unfold lint_try. unfold bind at 1. unfold lift at 1. rewrite Hyaml.
  unfold adds in Hfront. unfold bind at 1. rewrite Hfront.
  rewrite error_adds, add_findings_add. cbn [app].
  unfold report, hasErrors, add_findings. cbn [errors].
  rewrite length_app, length_app. cbn [length]. rewrite Nat.add_1_r, Nat.add_succ_r.
  reflexivity.
Qed.

End Endings.

(** ** The patterns written as literals *)

Module Pattern_facts.

Import JS.

Lemma span_digits_app (d rest : string) :
  all_digits d = true ->
  span is_digit (d ++ rest) = d ++ span is_digit rest.
Proof.
  induction d as [|c d IH]; simpl; [reflexivity|].
  intros H. apply andb_true_iff in H as [Hc Hd]. rewrite Hc. now rewrite IH.
Qed.

Lemma span_all_digits (s : string) : all_digits (span is_digit s) = true.
Proof.
  induction s as [|c s IH]; simpl; [reflexivity|].
  destruct (is_digit c) eqn:E; simpl; [now rewrite E|reflexivity].
Qed.

Lemma span_then_drop (p : ascii -> bool) (s : string) :
  span p s ++ drop (String.length (span p s)) s = s.
Proof.
  induction s as [|c s IH]; simpl; [reflexivity|].
  destruct (p c); simpl; [now rewrite IH|reflexivity].
Qed.

Lemma drop_app_length (a b : string) : drop (String.length a) (a ++ b) = b.
Proof. induction a as [|c a IH]; simpl; auto. Qed.

Lemma prefix_cons (a b : ascii) (s1 s2 : string) :
  String.prefix (String a s1) (String b s2) = Ascii.eqb a b && String.prefix s1 s2.
Proof.
  cbn [String.prefix]. destruct (Ascii.ascii_dec a b) as [->|Hne].
  - now rewrite Ascii.eqb_refl.
  - apply Ascii.eqb_neq in Hne. now rewrite Hne.
Qed.

Lemma prefix_empty (s : string) : String.prefix "" s = true.
Proof. now destruct s. Qed.

Lemma starts_with_dot (s : string) :
  startsWith s "." = true -> s = "." ++ drop 1 s.
Proof.
  unfold startsWith. destruct s as [|c s]; [discriminate|].
  rewrite prefix_cons, prefix_empty, andb_true_r. intros H.
  apply Ascii.eqb_eq in H. subst c. reflexivity.
Qed.

Lemma append_empty (s : string) : s ++ "" = s.
Proof. induction s as [|c s IH]; simpl; [reflexivity|now rewrite IH]. Qed.

Lemma span_stops_at_dot (d rest : string) :
  all_digits d = true ->
  span is_digit (d ++ String "." rest) = d.
Proof.
  intros H. rewrite (span_digits_app _ _ H). simpl. apply append_empty.
Qed.

Lemma nonempty_app (a b : string) : a <> "" -> String.eqb (a ++ b) "" = false.
Proof. destruct a; [congruence|reflexivity]. Qed.

(** X5.  The version test accepts exactly the texts that begin with three
    non-empty runs of decimal digits separated by dots; what follows the
    third run is not looked at. *)
Theorem semver_prefix_accepts_three_runs (s : string) :
  Pattern.semver_prefix s = true <->
  exists major minor patch rest : string,
    s = major ++ "." ++ minor ++ "." ++ patch ++ rest
    /\ all_digits major = true /\ major <> ""
    /\ all_digits minor = true /\ minor <> ""
    /\ all_digits patch = true /\ patch <> "".
Proof.
  split.
  - unfold Pattern.semver_prefix. cbv zeta. intros H.
    repeat (apply andb_true_iff in H; destruct H as [H ?]).
    set (d1 := span is_digit s) in *.
    set (r1 := drop (String.length d1) s) in *.
    set (d2 := span is_digit (drop 1 r1)) in *.
    set (r2 := drop (String.length d2) (drop 1 r1)) in *.
    set (d3 := span is_digit (drop 1 r2)) in *.
    exists d1, d2, d3, (drop (String.length d3) (drop 1 r2)).
    assert (Hne : forall x, negb (String.eqb x "") = true -> x <> "").
    { intros x Hx E. subst x. discriminate Hx. }
    repeat split; try apply span_all_digits; try (apply Hne; assumption).
    assert (E3 : d3 ++ drop (String.length d3) (drop 1 r2) = drop 1 r2)
      by apply span_then_drop.
    assert (E2 : d2 ++ r2 = drop 1 r1) by apply span_then_drop.
    assert (E1 : d1 ++ r1 = s) by apply span_then_drop.
    rewrite E3. rewrite <- (starts_with_dot r2) by assumption.
    rewrite E2. rewrite <- (starts_with_dot r1) by assumption.
    now rewrite E1.
  - intros (d1 & d2 & d3 & rest & -> & H1 & N1 & H2 & N2 & H3 & N3).
    unfold Pattern.semver_prefix. cbv zeta. cbn [String.append].
    rewrite (span_stops_at_dot d1 _ H1), drop_app_length.
    cbn [drop].
    rewrite (span_stops_at_dot d2 _ H2), drop_app_length.
    cbn [drop].
    rewrite (span_digits_app d3 rest H3).
    unfold startsWith. rewrite !prefix_cons, !prefix_empty. cbn [Ascii.eqb Bool.eqb andb].
    assert (Hn : forall x, x <> "" -> negb (String.eqb x "") = true).
    { intros x Hx. destruct x; [congruence|reflexivity]. }
    rewrite (Hn d1 N1), (Hn d2 N2). rewrite nonempty_app by exact N3. reflexivity.
Qed.

Lemma prefix_dashes_app (h tail : string) :
  String.prefix "---" h = false ->
  String.prefix "---" (h ++ String nl tail) = false.
Proof.
  destruct h as [|a [|b [|c h]]]; cbn [String.append].
  - intros _. now rewrite prefix_cons.
  - intros _. rewrite !prefix_cons. cbn [Ascii.eqb Bool.eqb andb].
    now rewrite andb_false_r.
  - intros _. rewrite !prefix_cons. cbn [Ascii.eqb Bool.eqb andb].
    now rewrite !andb_false_r.
  - rewrite !prefix_cons, !prefix_empty. auto.
Qed.

Lemma indexOf_closing (h tail : string) :
  includes h (String nl "---") = false ->
  indexOf (h ++ String nl "---" ++ tail) (String nl "---") = Some (String.length h).
Proof.
  remember (String nl "---" ++ tail) as closing eqn:Hc.
  induction h as [|c h IH]; intros H.
  - subst closing. cbn [String.append indexOf String.length].
    rewrite !prefix_cons, prefix_empty. rewrite !Ascii.eqb_refl. reflexivity.
  - cbn [includes] in H. apply orb_false_iff in H as [Hp Hi].
    cbn [String.append indexOf String.length].
    assert (Hq : String.prefix (String nl "---") (String c (h ++ closing)) = false).
    { rewrite prefix_cons in *. destruct (Ascii.eqb nl c); [|reflexivity].
      cbn [andb] in *. subst closing.
      change (String nl "---" ++ tail) with (String nl ("---" ++ tail)).
      now apply prefix_dashes_app. }
    rewrite Hq. rewrite (IH Hi). reflexivity.
Qed.

Lemma take_app_length (a b : string) : take (String.length a) (a ++ b) = a.
Proof. induction a as [|c a IH]; simpl; [now destruct b|now rewrite IH]. Qed.

(** X6.  A text made of the opening marker line, a header in which no line
    begins with three dashes after its first, the closing marker and a
    body is split back into that header and that body: the captured group
    is the header, and the text left for the body checks starts right
    after the closing dashes. *)
Theorem front_matter_is_split_as_composed (header body : string) :
  includes header (String nl "---") = false ->
  let content := "---" ++ String nl "" ++ header ++ String nl "---" ++ body in
  Pattern.frontMatterMatch content = Some (header, 8 + String.length header)
  /\ drop (8 + String.length header) content = body.
Proof.
  intros H content. unfold content, Pattern.frontMatterMatch.
  cbn [String.append]. unfold startsWith.
  rewrite !prefix_cons, prefix_empty, !Ascii.eqb_refl. cbn [andb drop].
  change (String nl (String "-" (String "-" (String "-" body))))
    with (String nl "---" ++ body).
  rewrite (indexOf_closing header body H).
  rewrite take_app_length. split.
  - f_equal. f_equal. lia.
  - replace (8 + String.length header) with (4 + (String.length header + 4)) by lia.
    cbn [drop Nat.add].
    replace (String.length header + 4) with (String.length (header ++ String nl "---")).
    + change (header ++ String nl "---" ++ body) with (header ++ (String nl "---" ++ body)).
      rewrite <- (drop_app_length (header ++ String nl "---") body) at 2.
      f_equal. induction header; simpl; [reflexivity|]. f_equal.
      apply IHheader. cbn [includes] in H. apply orb_false_iff in H. tauto.
    + clear. induction header; simpl; [reflexivity|]. now rewrite IHheader.
Qed.

End Pattern_facts.

(** ** Lines and sections *)

Module Section_facts.

Import JS.

Lemma split_not_empty (c : ascii) (s : string) : split c s <> [].
Proof.
  induction s as [|a s IH]; simpl; [discriminate|].
  destruct (Ascii.eqb a c); [discriminate|]. now destruct (split c s).
Qed.

Lemma split_cons_length (c a : ascii) (s : string) :
  length (split c s) <= length (split c (String a s)).
Proof.
  simpl. destruct (Ascii.eqb a c); simpl; [lia|].
  pose proof (split_not_empty c s). destruct (split c s); [congruence|simpl; lia].
Qed.

(** X9.  A line that contains [tier:] has at least two fields when split at
    the colons, so the read [tierLine.split(':')[1]] stays inside the array
    and the call of [trim] on it cannot fail. *)
Theorem tier_field_exists (line : string) :
  includes line "tier:" = true -> 2 <= length (split ":" line).
Proof.
  induction line as [|c r IH]; [discriminate|].
  cbn [includes]. intros H. apply orb_true_iff in H as [H|H].
  - destruct r as [|c1 [|c2 [|c3 [|c4 r]]]];
      rewrite ?Pattern_facts.prefix_cons in H; cbn [String.prefix] in H;
      rewrite ?andb_false_r in H; try discriminate H.
    repeat (apply andb_true_iff in H; destruct H as [? H]).
    repeat match goal with
           | E : Ascii.eqb _ _ = true |- _ => apply Ascii.eqb_eq in E; subst
           end.
    cbn [split Ascii.eqb Bool.eqb andb].
    pose proof (split_not_empty ":" r). destruct (split ":" r); [congruence|].
    simpl. lia.
  - specialize (IH H). pose proof (split_cons_length ":" c r). lia.
Qed.

Lemma split_lines_free (s : string) :
  Forall (fun line => free_of is_newline line = true) (split nl s).
Proof.
  induction s as [|a s IH]; simpl; [repeat constructor|].
  destruct (Ascii.eqb a nl) eqn:E.
  - constructor; [reflexivity|exact IH].
  - destruct (split nl s) as [|x xs]; [repeat constructor; simpl; unfold is_newline; now rewrite E|].
    inversion IH; subst. constructor; [|assumption].
    simpl. unfold is_newline at 1. rewrite E. assumption.
Qed.

Lemma split_free_line (s : string) :
  free_of is_newline s = true -> split nl s = [s].
Proof.
  induction s as [|a s IH]; simpl; [reflexivity|].
  unfold is_newline at 1. intros H. apply andb_true_iff in H as [Ha Hs].
  apply negb_true_iff in Ha. rewrite Ha. now rewrite (IH Hs).
Qed.

Lemma split_line_then (x rest : string) :
  free_of is_newline x = true ->
  split nl (x ++ String nl rest) = x :: split nl rest.
Proof.
  induction x as [|a x IH]; simpl.
  - intros _. reflexivity.
  - unfold is_newline at 1. intros H. apply andb_true_iff in H as [Ha Hx].
    apply negb_true_iff in Ha. rewrite Ha. now rewrite (IH Hx).
Qed.

(** splitting what [join] built gives the lines back *)
Lemma split_join (lines : list string) :
  lines <> [] ->
  Forall (fun line => free_of is_newline line = true) lines ->
  split nl (join (String nl "") lines) = lines.
Proof.
  induction lines as [|x rest IH]; [congruence|].
  intros _ H. inversion H as [|? ? Hx Hrest]; subst.
  destruct rest as [|y rest].
  - simpl. now apply split_free_line.
  - change (join (String nl "") (x :: y :: rest))
      with (x ++ String nl (join (String nl "") (y :: rest))).
    rewrite (split_line_then _ _ Hx). f_equal. apply IH; [discriminate|assumption].
Qed.

Lemma extract_loop_collects (sectionName : string) (inSection : bool)
    (lines : list string) (line : string) :
  In line (extract_loop sectionName inSection lines) ->
  is_heading line = false /\ In line lines.
Proof.
  revert inSection. induction lines as [|x rest IH]; intros inSection; simpl; [tauto|].
  unfold is_heading in *.
  destruct (startsWith x "## ") eqn:Eh; simpl.
  - destruct (includes x sectionName).
    + intros H. destruct (IH _ H). tauto.
    + destruct inSection; simpl; [tauto|]. intros H. destruct (IH _ H). tauto.
  - destruct inSection; simpl.
    + intros [<-|H]; [tauto|]. destruct (IH _ H). tauto.
    + intros H. destruct (IH _ H). tauto.
Qed.

(** X7.  Whatever the text and the name, the text [extractSection] returns
    contains no level-2 heading line, and each of its lines is a line of the
    text it was taken from (or it is the empty result). *)
Theorem extracted_lines_are_body_lines_and_no_headings
    (content sectionName line : string) :
  In line (split nl (extractSection content sectionName)) ->
  is_heading line = false
  /\ (In line (split nl content) \/ extractSection content sectionName = "").
Proof.
  unfold extractSection.
  destruct (extract_loop sectionName false (split nl content)) as [|x rest] eqn:E.
  - simpl. intros [<-|[]]. split; [reflexivity|now right].
  - rewrite split_join.
    + intros H. rewrite <- E in H.
      destruct (extract_loop_collects _ _ _ _ H). split; [assumption|now left].
    + discriminate.
    + apply Forall_forall. intros y Hy. rewrite <- E in Hy.
      destruct (extract_loop_collects _ _ _ _ Hy) as [_ Hin].
      exact (proj1 (Forall_forall _ _) (split_lines_free content) y Hin).
Qed.

Lemma required_prefix_is_required (s section : string) :
  In section REQUIRED_SECTIONS -> startsWith s section = true -> is_required s = true.
Proof.
  intros Hin Hs. unfold is_required. apply existsb_exists. now exists section.
Qed.

Lemma existsb_filter_required (found : list string) (section : string) :
  In section REQUIRED_SECTIONS ->
  existsb (fun s => startsWith s section) (filter is_required found)
  = existsb (fun s => startsWith s section) found.
Proof.
  intros Hin. induction found as [|s found IH]; simpl; [reflexivity|].
  destruct (is_required s) eqn:E; simpl; [now rewrite IH|].
  rewrite IH. destruct (startsWith s section) eqn:Es; [|reflexivity].
  rewrite (required_prefix_is_required _ _ Hin Es) in E. discriminate.
Qed.

(** X14.  Headings that begin with no required-section name play no part:
    two bodies with the same sequence of required-prefix titles get the
    same errors and warnings from the section checks. *)
Theorem other_headings_do_not_matter (content1 content2 : string) (l : CartridgeLinter) :
  orderedSections content1 = orderedSections content2 ->
  validateSections content1 l = validateSections content2 l.
Proof.
  intros H. rewrite (validateSections_adds content1 l), (validateSections_adds content2 l).
  rewrite H. f_equal. f_equal. f_equal.
  unfold missing_sections.
  transitivity (filter (fun section => negb (existsb (fun s => startsWith s section)
                                               (orderedSections content1)))
                       REQUIRED_SECTIONS).
  - apply filter_ext_in. intros section Hin. unfold orderedSections.
    now rewrite existsb_filter_required.
  - rewrite H. apply filter_ext_in. intros section Hin. unfold orderedSections.
    now rewrite existsb_filter_required.
Qed.

End Section_facts.

(** ** Fences in the Examples section *)

Module Fence_facts.

Import JS.

Lemma fence_scan_skips (a t : string) (k : nat) :
  Pattern.fence_scan (String.length a + k) (a ++ t) = Pattern.fence_scan k t.
Proof.
  induction a as [|c a IH]; [reflexivity|]. simpl. exact IH.
Qed.

Lemma fence_scan_passes (s t : string) (k : nat) :
  free_of is_backtick s = true ->
  Pattern.fence_scan k (s ++ t) = Pattern.fence_scan (k - String.length s) t.
Proof.
  revert k. induction s as [|c s IH]; intros k H.
  - simpl. now rewrite Nat.sub_0_r.
  - simpl in H. apply andb_true_iff in H as [Hc Hs].
    cbn [String.append Pattern.fence_scan String.length].
    destruct k as [|k].
    + unfold startsWith. rewrite Pattern_facts.prefix_cons.
      unfold is_backtick in Hc. apply negb_true_iff in Hc.
      rewrite Ascii.eqb_sym, Hc. cbn [andb]. now rewrite (IH 0 Hs).
    + now rewrite (IH k Hs).
Qed.

Lemma span_word_tag (tag rest : string) :
  all_word tag = true ->
  span is_word (tag ++ String nl rest) = tag.
Proof.
  induction tag as [|c tag IH]; simpl; [reflexivity|].
  intros H. apply andb_true_iff in H as [Hc Ht]. rewrite Hc. now rewrite (IH Ht).
Qed.

Lemma fence_scan_at_fence (rest : string) :
  Pattern.fence_scan 0 ("```" ++ rest)
  = (if String.eqb (span is_word rest) "" then None else Some (span is_word rest))
      :: Pattern.fence_scan (String.length (span is_word rest)) rest.
Proof.
  change ("```" ++ rest) with (String "`" (String "`" (String "`" rest))).
  cbn [Pattern.fence_scan]. unfold startsWith.
  rewrite !Pattern_facts.prefix_cons, Pattern_facts.prefix_empty.
  cbn [Ascii.eqb Bool.eqb andb drop]. reflexivity.
Qed.

Lemma free_then_newline (code : string) :
  free_of is_backtick code = true ->
  free_of is_backtick (String nl (code ++ String nl "")) = true.
Proof.
  intros H. cbn [free_of]. change (negb (is_backtick nl)) with true. cbn [andb].
  induction code as [|c code IH]; [reflexivity|].
  cbn [String.append free_of] in *. apply andb_true_iff in H as [-> Hc].
  now apply IH.
Qed.

Lemma append_assoc (a b c : string) : (a ++ b) ++ c = a ++ (b ++ c).
Proof. induction a as [|x a IH]; simpl; [reflexivity|now rewrite IH]. Qed.

(** the matches the scan finds in one closed block *)
Lemma closed_block_matches (tag code : string) :
  all_word tag = true -> tag <> "" ->
  free_of is_backtick code = true ->
  Pattern.codeBlockMatches ("```" ++ tag ++ String nl (code ++ String nl "```"))
  = [Some tag; None].
Proof.
  intros Hw Hne Hcode. unfold Pattern.codeBlockMatches.
  rewrite fence_scan_at_fence, (span_word_tag _ _ Hw).
  destruct (String.eqb tag "") eqn:E; [apply String.eqb_eq in E; congruence|].
  f_equal.
  rewrite <- (Nat.add_0_r (String.length tag)).
  rewrite (fence_scan_skips tag _ 0).
  replace (String nl (code ++ String nl "```"))
    with (String nl (code ++ String nl "") ++ "```")
    by (cbn [String.append]; f_equal; now rewrite append_assoc).
  rewrite (fence_scan_passes _ _ 0 (free_then_newline code Hcode)).
  cbn [Nat.sub]. rewrite <- (Pattern_facts.append_empty "```") at 1.
  rewrite fence_scan_at_fence. reflexivity.
Qed.

(** X8.  An Examples section that consists of one fenced block with a
    language tag, properly closed, still gets one warning: the scan takes
    the closing marker for a code block without a language. *)
Theorem closing_marker_counts_as_untagged
    (content tag code : string) (l : CartridgeLinter) :
  all_word tag = true -> tag <> "" ->
  free_of is_backtick code = true ->
  extractSection content "Examples" = "```" ++ tag ++ String nl (code ++ String nl "```") ->
  validateExamples content l = (add_findings [] [untagged_fence] l, Normal tt).
Proof.
  intros Hw Hne Hcode Hex. unfold validateExamples. rewrite Hex.
  rewrite (closed_block_matches tag code Hw Hne Hcode).
  cbn [String.append String.eqb includes].
  unfold startsWith. 
  assert (Hp : String.prefix "```" (String "`" (String "`" (String "`"
                 (tag ++ String nl (code ++ String nl "```"))))) = true).
  { now rewrite !Pattern_facts.prefix_cons, Pattern_facts.prefix_empty. }
  rewrite Hp. cbn [orb negb when for_each]. unfold bind, ret.
  rewrite warning_adds. reflexivity.
Qed.

End Fence_facts.

(** ** Loading with files that fail *)

Section PartialLoading.

Import Value Registry_ops.

Variable yaml_load : string -> Completion value.
Variable fault_message : fault -> string.

Lemma load_one_fails (name : string) (read : Completion string) (cause : exn)
    (l : CartridgeLinter) :
  fails_to_load yaml_load read cause ->
  load_one yaml_load fault_message name read l
  = (add_findings
       [finding ("Failed to load stack " ++ name ++ ": " ++ err_message fault_message cause)]
       [] l, Normal tt).
Proof.
  intros [H | [(text & Hr & Hy) | (text & v & Hr & Hy & Hn)]];
    unfold load_one, bind, lift.
  - rewrite H. apply error_adds.
  - rewrite Hr, Hy. apply error_adds.
  - rewrite Hr, Hy, Hn. apply error_adds.
Qed.

(** X10.  One file that cannot be read or parsed does not stop the load:
    each failing [.yml] file adds one error that names it, in the order of
    the listing, files with another ending are passed over, and every
    profile that loads is in the registry as if the others were not
    there. *)
Theorem loading_survives_failing_files (xs : list ListedFile) (l : CartridgeLinter) :
  Forall (classified yaml_load) xs ->
  loadStacks yaml_load fault_message (Listing (map listed xs)) l
  = ({| errors := errors l ++ load_failures fault_message xs;
        warnings := warnings l;
        stacks := {| entries := put_all (loading xs) (entries (stacks l));
                     proto := proto (stacks l) |} |},
     Normal tt).
Proof.
  unfold loadStacks. intros H. revert l.
  induction H as [|x xs Hx _ IH]; intros l.
  - simpl. destruct l as [e w [en pr]]. simpl. now rewrite app_nil_r.
  - destruct x as [f|name read cause|name read]; cbn [map listed filter fst snd as_listed].
    + destruct Hx as (Hext & Hrest). rewrite Hext. cbn [for_each]. unfold bind.
      unfold as_listed. cbn [fst snd].
      rewrite (load_one_valid yaml_load fault_message f l (conj Hext Hrest)).
      rewrite IH. reflexivity.
    + destruct Hx as (Hext & Hfail). rewrite Hext. cbn [for_each fst snd]. unfold bind.
      rewrite (load_one_fails name read cause l Hfail).
      rewrite IH.
      cbn [add_findings errors warnings stacks load_failures loading].
      now rewrite <- app_assoc, app_nil_r.
    + simpl in Hx. rewrite Hx. apply IH.
Qed.

End PartialLoading.

(** ** The batch runner *)

Section Runner.

Variable yaml_load : string -> Completion value.
Variable regexp_i : string -> option (string -> bool).
Variable fault_message : fault -> string.
Variable stacksDir : directory.
Variable cartridgesDir : string.
Variable tier_at : string -> tier_directory.
Variable fs : string -> entry.

Local Notation "'run_file'" := (validate_file yaml_load regexp_i fault_message stacksDir cartridgesDir fs).
Local Notation "'run_files'" := (validate_files yaml_load regexp_i fault_message stacksDir cartridgesDir fs).
Local Notation "'run_tier'" := (validate_tier yaml_load regexp_i fault_message stacksDir cartridgesDir tier_at fs).
Local Notation "'run_tiers'" := (validate_tiers yaml_load regexp_i fault_message stacksDir cartridgesDir tier_at fs).
Local Notation "'run_all'" := (validate_all yaml_load regexp_i fault_message stacksDir cartridgesDir tier_at fs).

Lemma returned_is_valid (fs' : string -> entry) (filePath : string)
    (l l' : CartridgeLinter) (r : Report) :
  lint yaml_load regexp_i fault_message fs' filePath l = (l', Returned r) ->
  valid r = true.
Proof.
  unfold lint.
  destruct (lint_checks yaml_load regexp_i fault_message fs' filePath l) as [l1 [u|e]];
    [|discriminate].
  unfold report. destruct (hasErrors l1) eqn:E; [discriminate|].
  intros H. now injection H as _ <-.
Qed.

Lemma exited_with_one (fs' : string -> entry) (filePath : string)
    (l l' : CartridgeLinter) (code : nat) :
  lint yaml_load regexp_i fault_message fs' filePath l = (l', Exited code) ->
  code = 1.
Proof.
  unfold lint.
  destruct (lint_checks yaml_load regexp_i fault_message fs' filePath l) as [l1 [u|e]];
    [|discriminate].
  unfold report. destruct (hasErrors l1); [|discriminate].
  intros H. now injection H as _ <-.
Qed.

Lemma run_file_continues (tier file : string) (t t' : Tally) :
  run_file tier file t = inl t' -> t' = counted 1 t.
Proof.
  unfold validate_file.
  destruct (new_CartridgeLinter yaml_load fault_message stacksDir) as [linter [u|e]];
    [|discriminate].
  destruct (lint yaml_load regexp_i fault_message fs _ linter) as [after [r|code|e]] eqn:E;
    try discriminate.
  rewrite (returned_is_valid _ _ _ _ _ E). intros H. now injection H as <-.
Qed.

Lemma run_file_exits (tier file : string) (t : Tally) (code : nat) :
  run_file tier file t = inr (ProcessExit code) ->
  code = 1 /\ exits_in_lint yaml_load regexp_i fault_message stacksDir cartridgesDir fs tier file.
Proof.
  unfold validate_file, exits_in_lint.
  destruct (new_CartridgeLinter yaml_load fault_message stacksDir) as [linter [[]|e]];
    [|discriminate].
  destruct (lint yaml_load regexp_i fault_message fs _ linter) as [after [r|c|e]] eqn:E;
    try discriminate.
  - destruct (valid r); discriminate.
  - intros H. injection H as <-. pose proof (exited_with_one _ _ _ _ _ E) as ->.
    split; [reflexivity|]. exists linter. split; [reflexivity|]. now rewrite E.
Qed.

Lemma counted_counted (n m : nat) (t : Tally) :
  counted n (counted m t) = counted (n + m) t.
Proof. unfold counted. simpl. f_equal; lia. Qed.

Lemma run_files_continue (tier : string) (files : list string) (t t' : Tally) :
  run_files tier files t = inl t' -> t' = counted (length files) t.
Proof.
  revert t. induction files as [|file rest IH]; intros t; simpl.
  - intros H. injection H as <-. now destruct t.
  - destruct (run_file tier file t) as [t1|s] eqn:E; [|discriminate].
    intros H. rewrite (IH _ H), (run_file_continues _ _ _ _ E), counted_counted.
    f_equal. lia.
Qed.

Lemma run_files_exit (tier : string) (files : list string) (t : Tally) (code : nat) :
  run_files tier files t = inr (ProcessExit code) ->
  code = 1 /\ exists file, In file files /\ exits_in_lint yaml_load regexp_i fault_message stacksDir cartridgesDir fs tier file.
Proof.
  revert t. induction files as [|file rest IH]; intros t; simpl; [discriminate|].
  destruct (run_file tier file t) as [t1|s] eqn:E.
  - intros H. destruct (IH _ H) as (Hc & f & Hin & Hex).
    split; [assumption|]. exists f. tauto.
  - intros H. injection H as ->. destruct (run_file_exits _ _ _ _ E) as (Hc & Hex).
    split; [assumption|]. exists file. tauto.
Qed.

Lemma run_tiers_continue (ts : list string) (t t' : Tally) :
  run_tiers ts t = inl t' ->
  t' = counted (listed_cartridges cartridgesDir tier_at ts) t.
Proof.
  revert t. induction ts as [|tier rest IH]; intros t; simpl.
  - intros H. injection H as <-. now destruct t.
  - unfold validate_tier at 1.
    change (listed_cartridges cartridgesDir tier_at (tier :: rest))
      with (match tier_at (path_join cartridgesDir tier) with
            | TierFiles names => length (cartridge_names names)
            | _ => 0
            end + listed_cartridges cartridgesDir tier_at rest).
    destruct (tier_at (path_join cartridgesDir tier)) as [|names|e].
    + intros H. now rewrite (IH _ H).
    + destruct (run_files tier (cartridge_names names) t) as [t1|s] eqn:E; [|discriminate].
      intros H. rewrite (IH _ H), (run_files_continue _ _ _ _ E), counted_counted.
      f_equal. lia.
    + discriminate.
Qed.

Lemma run_tiers_exit (ts : list string) (t : Tally) (code : nat) :
  run_tiers ts t = inr (ProcessExit code) ->
  code = 1
  /\ exists tier file names,
       In tier ts
       /\ tier_at (path_join cartridgesDir tier) = TierFiles names
       /\ In file (cartridge_names names)
       /\ exits_in_lint yaml_load regexp_i fault_message stacksDir cartridgesDir fs tier file.
Proof.
  revert t. induction ts as [|tier rest IH]; intros t; simpl; [discriminate|].
  unfold validate_tier at 1.
  destruct (tier_at (path_join cartridgesDir tier)) as [|names|e] eqn:Et.
  - intros H. destruct (IH _ H) as (Hc & tr & f & ns & Hin & Hrest).
    split; [assumption|]. exists tr, f, ns. tauto.
  - destruct (run_files tier (cartridge_names names) t) as [t1|s] eqn:E.
    + intros H. destruct (IH _ H) as (Hc & tr & f & ns & Hin & Hrest).
      split; [assumption|]. exists tr, f, ns. tauto.
    + intros H. injection H as ->.
      destruct (run_files_exit _ _ _ _ E) as (Hc & f & Hin & Hex).
      split; [assumption|]. exists tier, f, names. tauto.
  - discriminate.
Qed.

(** X11.  When the batch runner reaches its last statement, it has found
    no file invalid: the list of issues is empty, the count of invalid
    files is zero, and every [.md] file of every tier directory that exists
    was counted as valid.  The branch that records an invalid file is never
    taken, because [lint] hands back a report only when it is valid. *)
Theorem runner_finishes_only_without_invalid_files (t : Tally) :
  run_all = Done t ->
  issues t = [] /\ invalidFiles t = 0
  /\ validFiles t = totalFiles t
  /\ totalFiles t = listed_cartridges cartridgesDir tier_at tiers.
Proof.
  unfold validate_all.
  destruct (run_tiers tiers empty_tally) as [t1|s] eqn:E; [|discriminate].
  rewrite (run_tiers_continue _ _ _ E). cbn [issues counted empty_tally length Nat.eqb negb].
  intros H. injection H as <-. cbn. repeat split; lia.
Qed.

(** X12.  When the batch runner ends the process, the exit code is 1 and
    the exit was made inside [lint], by [report], on a [.md] file of one of
    the three tier directories: the runner's own summary of issues and its
    own exit are never reached. *)
Theorem runner_exit_is_made_by_lint (code : nat) :
  run_all = Stopped (ProcessExit code) ->
  code = 1
  /\ exists tier file names,
       In tier tiers
       /\ tier_at (path_join cartridgesDir tier) = TierFiles names
       /\ In file (cartridge_names names)
       /\ exits_in_lint yaml_load regexp_i fault_message stacksDir cartridgesDir fs tier file.
Proof.
  unfold validate_all.
  destruct (run_tiers tiers empty_tally) as [t1|s] eqn:E.
  - rewrite (run_tiers_continue _ _ _ E).
    cbn [issues counted empty_tally length Nat.eqb negb]. discriminate.
  - intros H. injection H as ->. exact (run_tiers_exit _ _ _ E).
Qed.

Lemma run_files_all_returned (tier : string) (files : list string)
    (linter : CartridgeLinter) (t : Tally) :
  new_CartridgeLinter yaml_load fault_message stacksDir = (linter, Normal tt) ->
  (forall file, In file files ->
     exists after r,
       lint yaml_load regexp_i fault_message fs
         (path_join (path_join cartridgesDir tier) file) linter = (after, Returned r)) ->
  run_files tier files t = inl (counted (length files) t).
Proof.
  intros Hnew. revert t. induction files as [|file rest IH]; intros t Hall.
  - simpl. now destruct t.
  - cbn [validate_files]. unfold validate_file. rewrite Hnew.
    destruct (Hall file (or_introl eq_refl)) as (after & r & Hr). rewrite Hr.
    rewrite (returned_is_valid _ _ _ _ _ Hr).
    rewrite IH by (intros f Hf; apply Hall; now right).
    f_equal. unfold counted. cbn. f_equal; lia.
Qed.

(** X13.  When the constructor succeeds, no tier directory fails to list,
    and [lint] hands back a report for every [.md] file of the tier
    directories that exist, the batch runner reaches its last statement
    with every such file counted once, as valid; tiers without a directory
    and files with another ending are passed over. *)
Theorem runner_counts_every_returned_file (linter : CartridgeLinter) :
  new_CartridgeLinter yaml_load fault_message stacksDir = (linter, Normal tt) ->
  (forall tier e, In tier tiers ->
     tier_at (path_join cartridgesDir tier) <> TierUnlistable e) ->
  (forall tier names file,
     In tier tiers ->
     tier_at (path_join cartridgesDir tier) = TierFiles names ->
     In file (cartridge_names names) ->
     exists after r,
       lint yaml_load regexp_i fault_message fs
         (path_join (path_join cartridgesDir tier) file) linter = (after, Returned r)) ->
  run_all = Done (counted (listed_cartridges cartridgesDir tier_at tiers) empty_tally).
Proof.
  intros Hnew Hlist Hall.
  assert (Hts : forall ts t, (forall tier, In tier ts -> In tier tiers) ->
            run_tiers ts t
            = inl (counted (listed_cartridges cartridgesDir tier_at ts) t)).
  { induction ts as [|tier rest IH]; intros t Hsub.
    - simpl. now destruct t.
    - cbn [validate_tiers]. unfold validate_tier at 1.
      change (listed_cartridges cartridgesDir tier_at (tier :: rest))
        with (match tier_at (path_join cartridgesDir tier) with
              | TierFiles names => length (cartridge_names names)
              | _ => 0
              end + listed_cartridges cartridgesDir tier_at rest).
      assert (Htier : In tier tiers) by (apply Hsub; now left).
      destruct (tier_at (path_join cartridgesDir tier)) as [|names|e] eqn:Et.
      + apply IH. intros x Hx. apply Hsub. now right.
      + rewrite (run_files_all_returned tier _ linter t Hnew)
          by (intros f Hf; now apply (Hall tier names f)).
        rewrite IH by (intros x Hx; apply Hsub; now right).
        rewrite counted_counted. do 2 f_equal. lia.
      + exfalso. now apply (Hlist tier e). }
  unfold validate_all. rewrite Hts by auto. reflexivity.
Qed.

End Runner.

(** ** The order of the registry's keys *)

Lemma put_all_appends (files : list ProfileFile) (l : list (string * value)) :
  NoDup (map file_id files) ->
  (forall f, In f files -> Value.get_own l (file_id f) = None) ->
  (forall f, In f files -> Registry_ops.array_index (file_id f) = None) ->
  map fst (put_all files l) = (map fst l ++ map file_id files)%list.
Proof.
  revert l. induction files as [|g files IH]; intros l Hnd Hnew Hidx; simpl.
  - now rewrite app_nil_r.
  - inversion Hnd as [|? ? Hnotin Hnd']; subst.
    fold (put_all files (Registry_ops.put (file_id g) (VObj (file_fields g)) l)).
    rewrite IH.
    + unfold Registry_ops.put. rewrite (Hnew g (or_introl eq_refl)).
      rewrite (Hidx g (or_introl eq_refl)). rewrite map_app. simpl.
      now rewrite <- app_assoc.
    + exact Hnd'.
    + intros f Hf. rewrite Registry_facts.get_own_put_other.
      * apply Hnew. now right.
      * intros E. apply Hnotin. rewrite <- E. now apply in_map.
    + intros f Hf. apply Hidx. now right.
Qed.

Section KeyOrder.

Variable yaml_load : string -> Completion value.
Variable fault_message : fault -> string.

(** X15.  [Object.keys] lists the stacks in the order their files were
    read, provided the identifiers are distinct and none is written as an
    array index: the list of available stacks in the unknown-stack error
    follows the directory listing. *)
Theorem keys_follow_the_listing (files : list ProfileFile) :
  Forall (valid_profile yaml_load) files ->
  NoDup (map file_id files) ->
  (forall f, In f files -> Registry_ops.array_index (file_id f) = None) ->
  Registry_ops.keys
    (stacks (fst (new_CartridgeLinter yaml_load fault_message
                    (Listing (map as_listed files)))))
  = map file_id files.
Proof.
  intros Hvalid Hnd Hidx. unfold new_CartridgeLinter.
  rewrite (load_all_valid _ _ _ _ Hvalid).
  unfold Registry_ops.keys. cbn [fst stacks entries Registry_ops.empty].
  now rewrite (put_all_appends files [] Hnd) by auto.
Qed.

End KeyOrder.

(** ** A forbidden term that is no regular expression *)

Section Terms.

Import JS Value.

Variable yaml_load : string -> Completion value.
Variable regexp_i : string -> option (string -> bool).
Variable fault_message : fault -> string.




End Terms.

(** ** A profile named [__proto__] *)

Section ProtoProfile.

Import JS Value.

Variable yaml_load : string -> Completion value.
Variable fault_message : fault -> string.


End ProtoProfile.

(** * Instances on the sample repository *)

(** X2, on a linter built where the stacks directory is missing. *)
Lemma held_error_witness :
  let l := fst (new_CartridgeLinter Docs.yaml_load Sample.fault_text NoDirectory) in
  let content := Docs.cartridge Docs.valid_header Docs.full_body in
  snd (Docs.lint_text content l) = Exited 1
  \/ exists e, Docs.holding content "cartridge.md" = Unreadable e
               /\ snd (Docs.lint_text content l) = Uncaught e.
Proof.
  apply (held_error_fails_every_validation Docs.yaml_load Sample.regexp Sample.fault_text
           (Docs.holding (Docs.cartridge Docs.valid_header Docs.full_body)) "cartridge.md"
           (fst (new_CartridgeLinter Docs.yaml_load Sample.fault_text NoDirectory))).
  vm_compute. discriminate.
Defined.

(** X4, on a header whose owner is the number 42. *)
Lemma owner_that_is_no_string_witness :
  lint Repo.sample_yaml Sample.regexp Sample.fault_text
    (Docs.holding (Docs.cartridge Repo.numeric_owner_header Docs.full_body))
    "cartridge.md" Docs.linter
  = (add_findings
       [finding "Invalid YAML in front matter: frontMatter.owner.startsWith is not a function"]
       [] Docs.linter,
     Exited 1).
Proof.
  apply (owner_that_is_no_string Repo.sample_yaml Sample.regexp Sample.fault_text
           (Docs.holding (Docs.cartridge Repo.numeric_owner_header Docs.full_body))
           "cartridge.md"
           (Docs.cartridge Repo.numeric_owner_header Docs.full_body)
           Repo.numeric_owner_header 121
           Repo.numeric_owner_fields (VNum "42") Docs.linter);
    vm_compute; reflexivity.
Defined.

(** X6, on the sample cartridge. *)
Lemma front_matter_is_split_witness :
  Pattern.frontMatterMatch (Docs.cartridge Docs.valid_header Docs.full_body)
  = Some (Docs.valid_header, 8 + String.length Docs.valid_header)
  /\ JS.drop (8 + String.length Docs.valid_header)
       (Docs.cartridge Docs.valid_header Docs.full_body) = Docs.full_body.
Proof.
  apply (Pattern_facts.front_matter_is_split_as_composed Docs.valid_header Docs.full_body).
  vm_compute. reflexivity.
Defined.

(** X7, on a body with an Examples section between two others. *)
Lemma extracted_lines_witness :
  let content := "## Inputs
none
## Examples
```ts
```
## Version History
1.0.0" in
  is_heading "```ts" = false
  /\ (In "```ts" (JS.split JS.nl content) \/ extractSection content "Examples" = "").
Proof.
  apply (Section_facts.extracted_lines_are_body_lines_and_no_headings "## Inputs
none
## Examples
```ts
```
## Version History
1.0.0" "Examples" "```ts").
  vm_compute. left. reflexivity.
Defined.

(** X8, on an Examples section of one closed TypeScript block. *)
Lemma closing_marker_witness :
  validateExamples Repo.closed_block_body Docs.linter
  = (add_findings [] [untagged_fence] Docs.linter, Normal tt).
Proof.
  apply (Fence_facts.closing_marker_counts_as_untagged Repo.closed_block_body
           "ts" "const x = 1;" Docs.linter).
  - vm_compute. reflexivity.
  - discriminate.
  - vm_compute. reflexivity.
  - vm_compute. reflexivity.
Defined.

(** X9, on the line of the sample header. *)
Lemma tier_field_witness : 2 <= length (JS.split ":" "tier: production").
Proof.
  apply (Section_facts.tier_field_exists "tier: production"). vm_compute. reflexivity.
Defined.

(** X14, on two bodies that differ by a heading outside the required ones. *)
Lemma other_headings_witness :
  validateSections "## Purpose
## Notes
## Inputs" Docs.linter
  = validateSections "## Purpose
## Inputs" Docs.linter.
Proof.
  apply (Section_facts.other_headings_do_not_matter "## Purpose
## Notes
## Inputs" "## Purpose
## Inputs" Docs.linter).
  vm_compute. reflexivity.
Defined.

(** X10, on a directory where three of five files fail to load. *)
Lemma loading_survives_witness :
  loadStacks Repo.sample_yaml Sample.fault_text (Listing (map listed Repo.mixed_files))
    (mk [] [] Registry_ops.empty)
  = ({| errors :=
          [ finding "Failed to load stack empty.yml: Cannot read properties (reading 'name')";
            finding "Failed to load stack broken.yml: unexpected end of the stream within a flow collection";
            finding "Failed to load stack locked.yml: EACCES: permission denied" ];
        warnings := [];
        stacks := {| entries := [("next-react-trpc-prisma", Docs.profile)];
                     proto := None |} |},
     Normal tt).
Proof.
  apply (loading_survives_failing_files Repo.sample_yaml Sample.fault_text
           Repo.mixed_files (mk [] [] Registry_ops.empty)).
  repeat apply Forall_cons; try apply Forall_nil.
  - repeat split; discriminate.
  - split; [reflexivity|]. right. right. exists "", VUndefined.
    repeat split; vm_compute; reflexivity.
  - split; [reflexivity|]. right. left. exists Docs.broken_header.
    split; vm_compute; reflexivity.
  - split; [reflexivity|]. left. reflexivity.
  - reflexivity.
Defined.

(** X11, on the sample repository with two well-formed cartridges. *)
Lemma runner_finishes_witness :
  let t := {| totalFiles := 2; validFiles := 2; invalidFiles := 0; issues := [] |} in
  issues t = [] /\ invalidFiles t = 0 /\ validFiles t = totalFiles t
  /\ totalFiles t = listed_cartridges Repo.cartridgesDir Repo.tier_at tiers.
Proof.
  apply (runner_finishes_only_without_invalid_files Repo.sample_yaml Sample.regexp
           Sample.fault_text Docs.stacks_dir Repo.cartridgesDir Repo.tier_at
           Repo.clean_files).
  vm_compute. reflexivity.
Defined.

(** X12, on the sample repository with one cartridge whose header is no
    YAML. *)
Lemma runner_exit_witness :
  1 = 1
  /\ exists tier file names,
       In tier tiers
       /\ Repo.tier_at (path_join Repo.cartridgesDir tier) = TierFiles names
       /\ In file (cartridge_names names)
       /\ exits_in_lint Repo.sample_yaml Sample.regexp Sample.fault_text Docs.stacks_dir
            Repo.cartridgesDir Repo.one_broken_file tier file.
Proof.
  apply (runner_exit_is_made_by_lint Repo.sample_yaml Sample.regexp Sample.fault_text
           Docs.stacks_dir Repo.cartridgesDir Repo.tier_at Repo.one_broken_file 1).
  vm_compute. reflexivity.
Defined.

(** X13, on the sample repository with two well-formed cartridges. *)
Lemma runner_counts_witness :
  validate_all Repo.sample_yaml Sample.regexp Sample.fault_text Docs.stacks_dir
    Repo.cartridgesDir Repo.tier_at Repo.clean_files
  = Done {| totalFiles := 2; validFiles := 2; invalidFiles := 0; issues := [] |}.
Proof.
  apply (runner_counts_every_returned_file Repo.sample_yaml Sample.regexp
           Sample.fault_text Docs.stacks_dir Repo.cartridgesDir Repo.tier_at
           Repo.clean_files
           (fst (new_CartridgeLinter Repo.sample_yaml Sample.fault_text Docs.stacks_dir))).
  - vm_compute. reflexivity.
  - intros tier e [<-|[<-|[<-|[]]]]; vm_compute; discriminate.
  - intros tier names file [<-|[<-|[<-|[]]]] Hnames;
      vm_compute in Hnames; try discriminate Hnames;
      injection Hnames as <-; intros [<-|[]];
      eexists; eexists; vm_compute; reflexivity.
Defined.

(** X15, on two profiles with different identifiers. *)
Lemma keys_follow_witness :
  Registry_ops.keys
    (stacks (fst (new_CartridgeLinter Docs.yaml_load Sample.fault_text
                    (Listing (map as_listed Docs.two_files)))))
  = ["next-react-trpc-prisma"; "django-htmx"].
Proof.
  apply (keys_follow_the_listing Docs.yaml_load Sample.fault_text Docs.two_files).
  - repeat constructor; discriminate.
  - repeat constructor; simpl; intuition discriminate.
  - intros f [<-|[<-|[]]]; vm_compute; reflexivity.
Defined.



(** ** Scenario B with its block closed (C6) *)

(** a shell block that names the three commands: the checker adds nothing,
    whatever tier it reads *)
Lemma quality_gates_with_every_command (content : string) (l : CartridgeLinter) :
  JS.includes (extractSection content "Quality Gates") "```bash"
  || JS.includes (extractSection content "Quality Gates") "```sh" = true ->
  forallb (JS.includes (extractSection content "Quality Gates")) expectedCommands = true ->
  validateQualityGates content l = (l, Normal tt).
Proof.
  intros Hfence Hcommands. unfold validateQualityGates.
  destruct (extractSection content "Quality Gates") as [|c r] eqn:E;
    [discriminate Hfence|].
  cbn [String.eqb]. unfold bind at 1.
  assert (Hwhen : when (negb (JS.includes (String c r) "```bash")
                        && negb (JS.includes (String c r) "```sh"))
                    (error "Quality Gates section must include runnable bash commands") l
                  = (l, Normal tt)).
  { apply orb_true_iff in Hfence. destruct Hfence as [-> | ->];
      cbn [negb andb]; rewrite ?andb_false_r; reflexivity. }
  rewrite Hwhen.
  destruct (find (fun line => JS.includes line "tier:") (JS.split JS.nl content))
    as [tierLine|]; [|reflexivity].
  cbv zeta. unfold when at 1.
  destruct (String.eqb (JS.trim (nth 1 (JS.split ":" tierLine) "")) "productizing"
            || String.eqb (JS.trim (nth 1 (JS.split ":" tierLine) "")) "production");
    [|reflexivity].
  apply for_each_quiet. apply Forall_forall. intros cmd Hcmd.
  rewrite forallb_forall in Hcommands. now rewrite (Hcommands cmd Hcmd).
Qed.

Lemma span_word_tagless (s rest : string) :
  tagless s = true -> JS.span JS.is_word (s ++ "```" ++ rest) = "".
Proof.
  unfold tagless. destruct s as [|c s]; [reflexivity|].
  cbn [String.append JS.span]. destruct (JS.is_word c); [discriminate|reflexivity].
Qed.

(** the scan finds the two markers of a closed block, neither with a tag *)
Lemma closed_untagged_block_matches (intro code outro : string) :
  free_of is_backtick intro = true ->
  free_of is_backtick code = true -> tagless code = true ->
  free_of is_backtick outro = true -> tagless outro = true ->
  Pattern.codeBlockMatches (closed_block intro code outro) = [None; None].
Proof.
  intros Hintro Hcode Htag Houtro Hend.
  unfold Pattern.codeBlockMatches, closed_block.
  rewrite (Fence_facts.fence_scan_passes intro _ 0 Hintro). cbn [Nat.sub].
  rewrite Fence_facts.fence_scan_at_fence, (span_word_tagless code outro Htag).
  cbn [String.eqb String.length]. f_equal.
  rewrite (Fence_facts.fence_scan_passes code _ 0 Hcode). cbn [Nat.sub].
  rewrite Fence_facts.fence_scan_at_fence.
  unfold tagless in Hend. rewrite Hend. apply String.eqb_eq in Hend. rewrite Hend.
  cbn [String.length]. f_equal.
  rewrite <- (Pattern_facts.append_empty outro).
  now rewrite (Fence_facts.fence_scan_passes outro _ 0 Houtro).
Qed.

(** a closed block without a language in the Examples section: two
    warnings *)
Lemma closed_untagged_block_warned_twice
    (content intro code outro : string) (l : CartridgeLinter) :
  extractSection content "Examples" = closed_block intro code outro ->
  free_of is_backtick intro = true ->
  free_of is_backtick code = true -> tagless code = true ->
  free_of is_backtick outro = true -> tagless outro = true ->
  validateExamples content l
  = (add_findings [] [untagged_fence; untagged_fence] l, Normal tt).
Proof.
  intros Hex Hintro Hcode Htag Houtro Hend.
  pose proof (closed_untagged_block_matches intro code outro
                Hintro Hcode Htag Houtro Hend) as Hscan.
  unfold validateExamples. rewrite Hex, Hscan.
  assert (Hinc : JS.includes (closed_block intro code outro) "```" = true).
  { apply (fence_scan_includes _ 0). unfold Pattern.codeBlockMatches in Hscan.
    rewrite Hscan. discriminate. }
  rewrite Hinc.
  destruct (closed_block intro code outro) as [|c r]; [discriminate Hscan|].
  cbn [String.eqb negb when for_each]. unfold bind, ret.
  rewrite !warning_adds, add_findings_add. reflexivity.
Qed.

Section ClosedBlock.

Import JS Value Header Header_facts.

Variable yaml_load : string -> Completion value.
Variable regexp_i : string -> option (string -> bool).
Variable fault_message : fault -> string.

(** C6 fails on the code.  Scenario B: a linter without findings; a header
    with the seven fields, all valid, whose stack is a key of the registry;
    a body whose required-prefix sections are the eleven sections, each
    once, in canonical order, and that complies with the profile of the
    stack; a Quality Gates section with a shell fence that names the three
    commands, so that the checker is silent whatever tier it reads; an
    Examples section that holds one fenced block, opened by a marker without
    a tag and closed by a marker.  The scan [/```(\w+)?/g] also matches the
    closing marker, without a captured group, and the checker pushes the
    warning for a code block without a language twice: [lint] returns a
    report with zero errors and two warnings, where the scenario has one. *)
Theorem C6_closed_untagged_block_is_warned_twice
    (fs : string -> entry) (filePath content captured : string) (matched : nat)
    (fields : list (string * value)) (name profile : value)
    (tier id version owner status intro code outro : string) (l : CartridgeLinter) :
  errors l = [] -> warnings l = [] ->
  fs filePath = File content ->
  Pattern.frontMatterMatch content = Some (captured, matched) ->
  yaml_load captured = Normal (VObj fields) ->
  get_own fields "cartridge" = Some (VBool true) ->
  get_own fields "name" = Some name ->
  get_own fields "tier" = Some (VStr tier) -> In tier VALID_TIERS ->
  get_own fields "stack" = Some (VStr id) -> id <> "" ->
  get_own (entries (stacks l)) id = Some profile -> truthy profile = true ->
  get_own fields "version" = Some (VStr version) ->
  Pattern.semver_prefix version = true ->
  get_own fields "owner" = Some (VStr owner) -> startsWith owner "@" = true ->
  get_own fields "status" = Some (VStr status) -> In status VALID_STATUSES ->
  map expectedIndex (orderedSections (drop matched content)) = canonical_indices ->
  complies regexp_i (drop matched content) (Found profile) ->
  includes (extractSection (drop matched content) "Quality Gates") "```bash"
  || includes (extractSection (drop matched content) "Quality Gates") "```sh" = true ->
  forallb (includes (extractSection (drop matched content) "Quality Gates"))
    expectedCommands = true ->
  extractSection (drop matched content) "Examples" = closed_block intro code outro ->
  free_of is_backtick intro = true ->
  free_of is_backtick code = true -> tagless code = true ->
  free_of is_backtick outro = true -> tagless outro = true ->
  lint yaml_load regexp_i fault_message fs filePath l
  = ({| errors := []; warnings := [untagged_fence; untagged_fence];
        stacks := stacks l |},
     Returned {| valid := true; report_errors := ErrorsArray;
                 report_warnings := WarningsArray |}).
Proof.
  intros He Hw Hfile Hmatch Hyaml Hc Hn Ht Htier Hs Hne Hreg Htruthy Hv Hsem Ho Hat
         Hst Hstatus Hsections Hcomplies Hgates Hcommands
         Hex Hintro Hcode Htag Houtro Hend.
  assert (Hlookup : Registry_ops.lookup (stacks l) id = Found profile).
  { unfold Registry_ops.lookup. now rewrite Hreg. }
  assert (Hfound : Registry_ops.slot_truthy (Registry_ops.lookup (stacks l) id) = true).
  { rewrite Hlookup. exact Htruthy. }
  unfold lint, lint_checks. rewrite Hfile, Hmatch.
  unfold lint_try. unfold bind at 1. unfold lift at 1. rewrite Hyaml.
  unfold bind at 1.
  rewrite (valid_header_quiet fields name tier id version owner status l
             Hc Hn Ht Htier Hs Hne Hfound Hv Hsem Ho Hat Hst Hstatus).
  unfold bind at 1. rewrite (canonical_sections_quiet _ l Hsections).
  unfold bind at 1. rewrite (compliance_quiet regexp_i _ id l Hne Hfound)
    by (rewrite Hlookup; exact Hcomplies).
  unfold bind at 1. rewrite (quality_gates_with_every_command _ l Hgates Hcommands).
  rewrite (closed_untagged_block_warned_twice _ intro code outro l
             Hex Hintro Hcode Htag Houtro Hend).
  unfold report, hasErrors, add_findings. rewrite He, Hw. reflexivity.
Qed.

End ClosedBlock.

(** C6, on the sample cartridge with its block closed: a header that is
    valid for the registered stack, the eleven sections in canonical order,
    a Quality Gates section that runs lint, typecheck and test, and an
    Examples section that holds one closed block without a language. *)
Lemma C6_closed_block_witness :
  Docs.lint_text ScenarioB.document Docs.linter
  = ({| errors := []; warnings := [untagged_fence; untagged_fence];
        stacks := stacks Docs.linter |},
     Returned {| valid := true; report_errors := ErrorsArray;
                 report_warnings := WarningsArray |}).
Proof.
  apply (C6_closed_untagged_block_is_warned_twice Docs.yaml_load Sample.regexp
           Sample.fault_text
           (Docs.holding ScenarioB.document) "cartridge.md" ScenarioB.document
           Docs.valid_header 130 Docs.valid_fields (VStr "Demo") Docs.profile
           "production" "next-react-trpc-prisma" "1.0.0" "@vibecore" "stable"
           "" ScenarioB.block_lines "" Docs.linter);
    try (vm_compute; reflexivity).
  - simpl. tauto.
  - discriminate.
  - simpl. tauto.
  - exists [VStr "vue"; VStr "svelte"; VStr "redux"].
    split; [reflexivity|]. split.
    + repeat apply Forall_cons; try apply Forall_nil;
        (eexists; split; [reflexivity|];
         split; [|repeat split; vm_compute; reflexivity]);
        repeat apply Forall_cons; try apply Forall_nil;
        eexists; (split; [reflexivity|vm_compute; reflexivity]).
    + change (required_techs (Found Docs.profile))
        with [VStr "next@15"; VStr "typescript"].
      repeat apply Forall_cons; try apply Forall_nil;
        eexists; eexists;
        (split; [reflexivity|split; [reflexivity|vm_compute; reflexivity]]).
Defined.
